(** * The MoneyPrinterTurbo settings page ([ai_compatibility.py])

    A shallow embedding of the page script: the session-state defaults, the
    translation lookup [tr], the asset scanners, [open_task_folder], the LLM
    provider column of the settings panel with its Save handler, and
    [validate_config].

    Conventions.
    - A Python [str] is a [string] of bytes (the UTF-8 encoding of the text);
      comparing two strings byte by byte is comparing them code point by code
      point.
    - [config.app], [st.session_state] and the translation tables are
      dictionaries keyed by strings: [gmap string _].  [d.get(k, v)] is
      [default v (d !! k)], [d[k] = v] is [<[k:=v]> d], [k not in d] is
      [d !! k = None], and [d[k]] raises [KeyError] when the key is absent.
    - A statement that may raise runs in the monad [M]: it takes the world and
      returns a result ([Ok] or [Raise]) together with the world it leaves
      behind.  Whatever the script shows, logs or hands to the operating
      system is appended to the world's list of effects. *)

From Stdlib Require Import Ascii NArith ZArith Lia.
From Stdlib Require Import Sorting.Sorted.
From stdpp Require Import gmap strings list sorting fin_maps.

(** ** Python values, exceptions and results *)

Module Py.

(** The exception classes the script meets; all derive from [Exception]. *)
Inductive exn_class :=
  | KeyError
  | TypeError
  | ValueError
  | OSError
  | ValidationError.

Record exn := Exn { exn_cls : exn_class; exn_msg : string }.

Inductive result (A : Type) :=
  | Ok (a : A)
  | Raise (e : exn).
Arguments Ok {A} a.
Arguments Raise {A} e.

Definition is_ok {A} (r : result A) : bool :=
  match r with Ok _ => true | Raise _ => false end.

(** [d[k]] on a dictionary.  The exception is a [KeyError]; [exn_msg] holds
    the key, and the text an object such as [st.session_state] puts in its
    message is not modelled. *)
Definition getitem {V} (d : gmap string V) (k : string) : result V :=
  match d !! k with
  | Some v => Ok v
  | None => Raise (Exn KeyError k)
  end.

(** Truth value of a [str]: only the empty string is false. *)
Definition truthy (s : string) : bool :=
  match s with
  | EmptyString => false
  | String _ _ => true
  end.

(** [s.lower()] on ASCII text, byte by byte: the letters A-Z move to a-z,
    every other byte stays.  The script is modelled with it where the text
    is a provider name of its list; where [str.lower] meets text from
    elsewhere, the function is a parameter of the model. *)
Definition lower_ascii (c : ascii) : ascii :=
  let n := N_of_ascii c in
  if ((65 <=? n) && (n <=? 90))%N then ascii_of_N (n + 32) else c.

Fixpoint lower (s : string) : string :=
  match s with
  | EmptyString => EmptyString
  | String c s' => String (lower_ascii c) (lower s')
  end.

(** [s.endswith(suffix)]: one of the tails of [s] is [suffix]. *)
Fixpoint endswith (s suffix : string) : bool :=
  if String.eqb s suffix then true
  else match s with
       | EmptyString => false
       | String _ s' => endswith s' suffix
       end.

(** The order of [list.sort()] on strings. *)
Definition str_le (s1 s2 : string) : Prop := String.leb s1 s2 = true.

#[export] Instance str_le_dec : RelDecision str_le.
Proof. intros s1 s2. unfold str_le. apply _. Defined.

End Py.
Export Py.

(** ** Effects and the world *)

(** What the script does to its surroundings, in the order it does it. *)
Inductive event :=
  | StMarkdown (body : string)          (* st.markdown(body, unsafe_allow_html=True) *)
  | StSuccess (body : string)           (* st.success(body) *)
  | ConfigSave (app : gmap string string) (* config.save(), with config.app as written *)
  | OsSystem (command : string)         (* os.system(command) *)
  | LoggerError (prefix : string) (e : exn). (* logger.error(prefix + str(e)) *)

Record world := World {
  session_state : gmap string string;   (* st.session_state *)
  config_app : gmap string string;      (* config.app *)
  effects : list event
}.

Definition set_app (f : gmap string string → gmap string string) (w : world) : world :=
  World (session_state w) (f (config_app w)) (effects w).
Definition add_effect (e : event) (w : world) : world :=
  World (session_state w) (config_app w) (effects w ++ [e]).

(** A statement: the result and the world after it.  A raise keeps the
    world as it was when the exception left. *)
Definition M (A : Type) : Type := world → result A * world.

Definition ret {A} (a : A) : M A := λ w, (Ok a, w).
Definition raise {A} (e : exn) : M A := λ w, (Raise e, w).
Definition bind {A B} (m : M A) (k : A → M B) : M B :=
  λ w, match m w with
       | (Ok a, w') => k a w'
       | (Raise e, w') => (Raise e, w')
       end.
Definition lift {A} (r : result A) : M A := λ w, (r, w).

Notation "'let*' x ':=' m 'in' k" := (bind m (λ x, k))
  (at level 10, x pattern, m at level 100, k at level 200).
Notation "'run' m 'in' k" := (bind m (λ _, k))
  (at level 10, m at level 100, k at level 200).

(** [try: body except cls: handler(e)]. *)
Definition try_except {A} (body : M A) (catches : exn_class → bool)
    (handler : exn → M A) : M A :=
  λ w, match body w with
       | (Ok a, w') => (Ok a, w')
       | (Raise e, w') => if catches (exn_cls e) then handler e w' else (Raise e, w')
       end.

Definition get_session : M (gmap string string) := λ w, (Ok (session_state w), w).
Definition get_app : M (gmap string string) := λ w, (Ok (config_app w), w).
Definition app_get (k d : string) : M string :=
  λ w, (Ok (default d (config_app w !! k)), w).
Definition app_set (k v : string) : M unit :=
  λ w, (Ok tt, set_app (insert k v) w).
Definition emit (e : event) : M unit := λ w, (Ok tt, add_effect e w).

(** ** Session state defaults (lines 65-72) *)

Module Session.

(** [if k not in st.session_state: st.session_state[k] = v]. *)
Definition init_key (k v : string) (ss : gmap string string) : gmap string string :=
  match ss !! k with
  | None => <[k:=v]> ss
  | Some _ => ss
  end.

(** [config_ui] is [config.ui]; [system_locale] is what
    [utils.get_system_locale()] returned. *)
Definition init_session_state (config_ui : gmap string string) (system_locale : string)
    (ss : gmap string string) : gmap string string :=
  let ss := init_key "video_subject" "" ss in
  let ss := init_key "video_script" "" ss in
  let ss := init_key "video_terms" "" ss in
  init_key "ui_language" (default system_locale (config_ui !! "language")) ss.

End Session.

(** ** Translation lookup (lines 153-158) *)

Module I18n.

(** One entry of the locale table: a dictionary that may hold the keys
    ["Language"] and ["Translation"]; the empty dictionary has neither. *)
Record locale := Locale {
  Language : option string;
  Translation : option (gmap string string)
}.

Definition empty_locale : locale := Locale None None.

Definition tr (locales : gmap string locale) (key : string) : M string :=
  let* ss := get_session in
  let* ui_language := lift (getitem ss "ui_language") in
  let loc := default empty_locale (locales !! ui_language) in
  ret (default key (default ∅ (Translation loc) !! key)).

End I18n.

(** ** Asset scanners (lines 75-91) *)

Module Assets.

(** A directory: the names of its files and its sub-directories, each in the
    order the operating system lists them. *)
#[warnings="-register-all"] Inductive dir :=
  | Dir (files : list string) (subdirs : list (string * dir)).

Definition dir_files (d : dir) : list string :=
  match d with Dir files _ => files end.
Definition dir_subdirs (d : dir) : list (string * dir) :=
  match d with Dir _ subdirs => subdirs end.

(** [os.walk(top)], top-down: one triple [(root, dirs, files)] for the
    directory, then the triples of each sub-directory in turn. *)
Fixpoint walk (root : string) (d : dir) : list (string * list string * list string) :=
  match d with
  | Dir files subdirs =>
      (root, map fst subdirs, files)
      :: flat_map (λ sub, walk (root +:+ "/" +:+ fst sub) (snd sub)) subdirs
  end.

(** [os.walk] on a path that is not a directory yields nothing. *)
Definition os_walk (root : string) (top : option dir)
    : list (string * list string * list string) :=
  match top with
  | Some d => walk root d
  | None => []
  end.

(** The two nested [for] loops: [keep] is the test of the [if], and a file
    that passes is appended to the list built so far. *)
Definition scan (keep : string → bool)
    (walked : list (string * list string * list string)) : list string :=
  fold_left
    (λ acc entry,
       fold_left (λ acc file, if keep file then acc ++ [file] else acc)
                 (snd entry) acc)
    walked [].

Definition is_font (file : string) : bool :=
  endswith file ".ttf" || endswith file ".ttc".

Definition is_song (file : string) : bool :=
  endswith file ".mp3".

Definition get_all_fonts (font_dir : string) (top : option dir) : list string :=
  let fonts := scan is_font (os_walk font_dir top) in
  merge_sort str_le fonts.

Definition get_all_songs (song_dir : string) (top : option dir) : list string :=
  scan is_song (os_walk song_dir top).

(** Every file name below a directory, in walk order. *)
Fixpoint file_names (d : dir) : list string :=
  match d with
  | Dir files subdirs => files ++ flat_map (λ sub, file_names (snd sub)) subdirs
  end.

(** Every file name below a path; none when the path is no directory. *)
Definition names_below (top : option dir) : list string :=
  from_option file_names [] top.

End Assets.

(** ** Opening a task folder (lines 94-104) *)

Module TaskFolder.

(** The host the script runs on: what each library call answers.  A call
    either returns or raises. *)
Record host := Host {
  platform_system : result string;            (* platform.system() *)
  path_join : list string → result string;    (* os.path.join(a, b, ...) *)
  path_exists : string → result bool;         (* os.path.exists(path) *)
  os_system_status : string → result Z        (* exit status of os.system(command) *)
}.

(** [os.system(command)]: when the call goes through, the command has run. *)
Definition os_system (h : host) (command : string) : M Z :=
  match os_system_status h command with
  | Ok status => run emit (OsSystem command) in ret status
  | Raise e => raise e
  end.

Definition open_task_folder (h : host) (root_dir task_id : string) : M unit :=
  try_except
    (let* sys := lift (platform_system h) in
     let* path := lift (path_join h [root_dir; "storage"; "tasks"; task_id]) in
     let* found := lift (path_exists h path) in
     if found then
       run (if String.eqb sys "Windows"
            then run os_system h ("start " +:+ path) in ret tt
            else ret tt) in
       if String.eqb sys "Darwin"
       then run os_system h ("open " +:+ path) in ret tt
       else ret tt
     else ret tt)
    (λ _, true)                                  (* except Exception *)
    (λ e, emit (LoggerError "" e)).

(** Three hosts to run the function on. *)
Definition windows_host : host :=
  Host (Ok "Windows") (λ parts, Ok (String.concat "\" parts))
       (λ _, Ok true) (λ _, Ok 0%Z).
Definition linux_host : host :=
  Host (Ok "Linux") (λ parts, Ok (String.concat "/" parts))
       (λ _, Ok true) (λ _, Ok 0%Z).
Definition failing_host : host :=
  Host (Ok "Darwin") (λ parts, Ok (String.concat "/" parts))
       (λ path, Raise (Exn OSError path)) (λ _, Ok 0%Z).

End TaskFolder.

(** ** Credential validation (lines 374-387) *)

(** [ConfigModel] declares five fields on a base class that the file
    imports and does not define; [validate_config] builds a model from a
    payload and turns a validation error into a logged [None]. *)

Module Validation.

(** The values a payload dictionary may hold.  A value that is neither
    [None] nor a string (bytes, a number, a list, ...) is given by what the
    conversion to [str] makes of it: [Some text] when it is converted to
    that text, as bytes that decode are, and [None] when it is rejected. *)
Inductive pyval :=
  | PNone
  | PStr (s : string)
  | POther (as_text : option string).

Inductive pykey :=
  | KStr (s : string)
  | KInt (z : Z).

#[export] Instance pykey_eq_dec : EqDecision pykey.
Proof. solve_decision. Defined.

#[export] Instance pykey_countable : Countable pykey.
Proof.
  refine (inj_countable'
            (λ k, match k with KStr s => inl s | KInt z => inr z end)
            (λ x, match x with inl s => KStr s | inr z => KInt z end) _).
  intros []; reflexivity.
Defined.

Definition is_str_key (k : pykey) : bool :=
  match k with KStr _ => true | KInt _ => false end.

(** [class ConfigModel]: [api_key: str = Field(...)] is required, the four
    other fields are [Optional[str]] with default [None]. *)
Record ConfigModel := Build_ConfigModel {
  api_key : string;
  secret_key : option string;
  base_url : option string;
  model_name : option string;
  account_id : option string
}.

Inductive field_error :=
  | Missing (field : string)         (* Field required *)
  | StringType (field : string).     (* Input should be a valid string *)

(** A field annotated [str] with no default. *)
Definition required_str (kwargs : string → option pyval) (field : string)
    : field_error + string :=
  match kwargs field with
  | None => inl (Missing field)
  | Some (PStr s) => inr s
  | Some (POther (Some s)) => inr s
  | Some (POther None) => inl (StringType field)
  | Some PNone => inl (StringType field)
  end.

(** A field annotated [Optional[str]] with default [None]. *)
Definition optional_str (kwargs : string → option pyval) (field : string)
    : field_error + option string :=
  match kwargs field with
  | None => inr None
  | Some PNone => inr None
  | Some (PStr s) => inr (Some s)
  | Some (POther (Some s)) => inr (Some s)
  | Some (POther None) => inl (StringType field)
  end.

Definition errors_of {A} (r : field_error + A) : list field_error :=
  match r with inl e => [e] | inr _ => [] end.

Definition describe (e : field_error) : string :=
  match e with
  | Missing field => field +:+ ": Field required"
  | StringType field => field +:+ ": Input should be a valid string"
  end.

Definition validation_error (errors : list field_error) : exn :=
  Exn ValidationError (String.concat (String "010" "") (map describe errors)).

(** Modelled from the spec: the base class [PydanticV2Model] of
    [ConfigModel] is imported from [pydantic.v2], which the repository does
    not hold; the spec calls the class a Pydantic-style model whose
    validation fails closed, so the constructor is taken to validate as a
    pydantic model does for the annotations the class declares.  A required
    [str] field takes a string as it is, rejects [None] and is an error when
    left out; an [Optional[str]] field also takes [None] and may be left
    out; any other value goes through the conversion to [str], which the
    model does not fix ([POther]).  Every field is checked, the errors of all
    fields are gathered, and keywords that name no field are ignored. *)
Definition validate_fields (kwargs : string → option pyval) : result ConfigModel :=
  let a := required_str kwargs "api_key" in
  let s := optional_str kwargs "secret_key" in
  let b := optional_str kwargs "base_url" in
  let m := optional_str kwargs "model_name" in
  let i := optional_str kwargs "account_id" in
  match a, s, b, m, i with
  | inr a, inr s, inr b, inr m, inr i => Ok (Build_ConfigModel a s b m i)
  | _, _, _, _, _ =>
      Raise (validation_error
               (errors_of a ++ errors_of s ++ errors_of b ++ errors_of m ++ errors_of i))
  end.

(** The constructor call on the unpacked [config_data] (the double-star
    call of line 383): unpacking needs every key to be a string, then the
    fields are validated. *)
Definition ConfigModel_init (config_data : gmap pykey pyval) : result ConfigModel :=
  if bool_decide (map_Forall (λ k _, is_str_key k = true) config_data)
  then validate_fields (λ field, config_data !! KStr field)
  else Raise (Exn TypeError "keywords must be strings").

Definition validate_config (config_data : gmap pykey pyval) : M (option ConfigModel) :=
  try_except
    (let* config_model := lift (ConfigModel_init config_data) in
     ret (Some config_model))
    (λ cls, match cls with ValidationError => true | _ => false end)
    (λ e, run emit (LoggerError "Configuration validation error: " e) in ret None).

(** Payloads of strings: a string for [api_key]; a string, [None] or no
    entry at all for each optional field. *)
Definition accepts_required (v : option pyval) : bool :=
  match v with Some (PStr _) => true | _ => false end.
Definition accepts_optional (v : option pyval) : bool :=
  match v with None | Some PNone | Some (PStr _) => true | Some (POther _) => false end.
Definition well_typed (config_data : gmap pykey pyval) : bool :=
  accepts_required (config_data !! KStr "api_key")
  && accepts_optional (config_data !! KStr "secret_key")
  && accepts_optional (config_data !! KStr "base_url")
  && accepts_optional (config_data !! KStr "model_name")
  && accepts_optional (config_data !! KStr "account_id").

(** The text a field takes from a payload entry, if any. *)
Definition field_text (v : option pyval) : option string :=
  match v with
  | Some (PStr s) => Some s
  | Some (POther as_text) => as_text
  | Some PNone | None => None
  end.

(** The payload of the example usage (lines 390-396). *)
Definition example_config_data : gmap pykey pyval :=
  <[KStr "api_key" := PStr "example_key"]>
    (<[KStr "secret_key" := PStr "example_secret"]>
       (<[KStr "base_url" := PStr "http://example.com"]>
          (<[KStr "model_name" := PStr "example_model"]>
             (<[KStr "account_id" := PStr "example_account"]> ∅)))).

End Validation.

(** ** The LLM provider column of the settings panel (lines 192-308) *)

(** The script renders the column on every run in which [hide_config] is not
    set in [config.app].  One run reads what the user did to the widgets
    ([interaction]), reads and writes [config.app], and shows the help text
    and the confirmation message.  The language column to its left writes
    [config.ui] and the session's [ui_language] only; it is not part of this
    model. *)

Module Settings.
Import I18n.

Definition llm_providers : list string :=
  ["OpenAI"; "Moonshot"; "Azure"; "Qwen"; "DeepSeek"; "Gemini"; "Ollama";
   "G4f"; "OneAPI"; "Cloudflare"; "ERNIE"].

(** What the widgets of the column hold when this run of the script reaches
    them: the option picked in the select box and the text typed into each
    input, as far as the widget keeps it.  [None] is a widget that holds
    nothing of the user's: one never touched, or one made anew because its
    arguments changed. *)
Record interaction := Interaction {
  picked_provider : option string;
  typed_api_key : option string;
  typed_secret_key : option string;
  typed_base_url : option string;
  typed_model_name : option string;
  typed_account_id : option string;
  save_clicked : bool
}.

(** The widgets: a select box answers the option it holds, or the option
    at [index] when it holds none; a text input answers the typed text it
    holds, or [value] when it holds none. *)
Definition selectbox (label : string) (options : list string) (index : nat)
    (picked : option string) : string :=
  default (nth index options "") picked.
Definition text_input (label value : string) (typed : option string) : string :=
  default value typed.
Definition button (label : string) (clicked : bool) : bool := clicked.

Definition enumerate {A} (l : list A) : list (nat * A) :=
  zip (seq 0 (length l)) l.

(** The [for ... break] loop of lines 208-211; [index] is the value the
    variable holds when the loop runs out. *)
Fixpoint provider_loop (saved_llm_provider : string) (rest : list (nat * string))
    (index : nat) : nat :=
  match rest with
  | [] => index
  | (i, provider) :: rest' =>
      if String.eqb (lower provider) saved_llm_provider then i
      else provider_loop saved_llm_provider rest' index
  end.

Definition saved_llm_provider_index (saved_llm_provider : string) : nat :=
  provider_loop saved_llm_provider (enumerate llm_providers) 0.

(** The five local variables that seed, and then hold, the form. *)
Record fields := Fields {
  llm_api_key : string;
  llm_secret_key : string;
  llm_base_url : string;
  llm_model_name : string;
  llm_account_id : string
}.

Definition with_api_key (v : string) (f : fields) : fields :=
  Fields v (llm_secret_key f) (llm_base_url f) (llm_model_name f) (llm_account_id f).
Definition with_base_url (v : string) (f : fields) : fields :=
  Fields (llm_api_key f) (llm_secret_key f) v (llm_model_name f) (llm_account_id f).
Definition with_model_name (v : string) (f : fields) : fields :=
  Fields (llm_api_key f) (llm_secret_key f) (llm_base_url f) v (llm_account_id f).

Definition ollama_tips : string :=
"
                           ##### Ollama配置说明
                           - **API Key**: 随便填写，比如 123
                           - **Base Url**: 一般为 http://localhost:11434/v1
                              - 如果 `MoneyPrinterTurbo` 和 `Ollama` **不在同一台机器上**，需要填写 `Ollama` 机器的IP地址
                              - 如果 `MoneyPrinterTurbo` 是 `Docker` 部署，建议填写 `http://host.docker.internal:11434/v1`
                           - **Model Name**: 使用 `ollama list` 查看，比如 `qwen:7b`
                           ".

Definition openai_tips : string :=
"
                       ##### OpenAI配置说明
                       - **API Key**: 登录 [OpenAI](https://platform.openai.com) 后，访问 [API Keys](https://platform.openai.com/account/api-keys)
                       ".

Definition azure_tips : string :=
"
                       ##### Azure配置说明
                       - **API Key**: 登录 [Azure](https://portal.azure.com) 后，访问 [Keys and Endpoint](https://portal.azure.com/#blade/Microsoft_Azure_AI/LanguageStudio/KeyAndEndpoint)
                       - **Base Url**: 登录 [Azure](https://portal.azure.com) 后，访问 [Keys and Endpoint](https://portal.azure.com/#blade/Microsoft_Azure_AI/LanguageStudio/KeyAndEndpoint)
                       - **Model Name**: `Azure` 模型名称，不需要填写完整，例如: `gpt-35-turbo`
                       ".

Definition moonshot_tips : string :=
"
                       ##### Moonshot配置说明
                       - **Base Url**: 一般为 http://localhost:8080/v1
                           - 如果 `MoneyPrinterTurbo` 和 `Moonshot` **不在同一台机器上**，需要填写 `Moonshot` 机器的IP地址
                           - 如果 `MoneyPrinterTurbo` 是 `Docker` 部署，建议填写 `http://host.docker.internal:8080/v1`
                       - **Model Name**: 使用 `moonshot list` 查看
                       ".

(** Lines 222-228. *)
Definition read_fields (llm_provider : string) : M fields :=
  let* llm_api_key := app_get (llm_provider +:+ "_api_key") "" in
  let* llm_secret_key := app_get (llm_provider +:+ "_secret_key") "" in
  let* llm_base_url := app_get (llm_provider +:+ "_base_url") "" in
  let* llm_model_name := app_get (llm_provider +:+ "_model_name") "" in
  let* llm_account_id := app_get (llm_provider +:+ "_account_id") "" in
  ret (Fields llm_api_key llm_secret_key llm_base_url llm_model_name llm_account_id).

(** Lines 230-280: the four special-cased providers. *)
Definition provider_defaults (llm_provider : string) (f : fields) : M (fields * string) :=
  let tips := "" in
  let* (f, tips) :=
    if String.eqb llm_provider "ollama" then
      let f := if negb (truthy (llm_model_name f)) then with_model_name "qwen:7b" f else f in
      let f := if negb (truthy (llm_base_url f))
               then with_base_url "http://localhost:11434/v1" f else f in
      ret (f, ollama_tips)
    else ret (f, tips) in
  let* (f, tips) :=
    if String.eqb llm_provider "openai" then
      let* f := if negb (truthy (llm_api_key f))
                then let* v := app_get "openai_api_key" "" in ret (with_api_key v f)
                else ret f in
      ret (f, openai_tips)
    else ret (f, tips) in
  let* (f, tips) :=
    if String.eqb llm_provider "azure" then
      let* f := if negb (truthy (llm_api_key f))
                then let* v := app_get "azure_api_key" "" in ret (with_api_key v f)
                else ret f in
      let* f := if negb (truthy (llm_base_url f))
                then let* v := app_get "azure_base_url" "" in ret (with_base_url v f)
                else ret f in
      let* f := if negb (truthy (llm_model_name f))
                then let* v := app_get "azure_model_name" "" in ret (with_model_name v f)
                else ret f in
      ret (f, azure_tips)
    else ret (f, tips) in
  if String.eqb llm_provider "moonshot" then
    let* f := if negb (truthy (llm_base_url f))
              then let* v := app_get "moonshot_base_url" "" in ret (with_base_url v f)
              else ret f in
    let* f := if negb (truthy (llm_model_name f))
              then let* v := app_get "moonshot_model_name" "" in ret (with_model_name v f)
              else ret f in
    ret (f, moonshot_tips)
  else ret (f, tips).

(** Lines 222-283: the values that seed the form, with the help text shown. *)
Definition prefill (llm_provider : string) : M fields :=
  let* f := read_fields llm_provider in
  let* (f, tips) := provider_defaults llm_provider f in
  run (if truthy tips then emit (StMarkdown tips) else ret tt) in
  ret f.

(** Lines 285-299: the five text inputs. *)
Definition form_inputs (locales : gmap string locale) (u : interaction) (f : fields)
    : M fields :=
  let* label := tr locales "API Key" in
  let llm_api_key := text_input label (llm_api_key f) (typed_api_key u) in
  let* label := tr locales "Secret Key" in
  let llm_secret_key := text_input label (llm_secret_key f) (typed_secret_key u) in
  let* label := tr locales "Base Url" in
  let llm_base_url := text_input label (llm_base_url f) (typed_base_url u) in
  let* label := tr locales "Model Name" in
  let llm_model_name := text_input label (llm_model_name f) (typed_model_name u) in
  let* label := tr locales "Account Id" in
  let llm_account_id := text_input label (llm_account_id f) (typed_account_id u) in
  ret (Fields llm_api_key llm_secret_key llm_base_url llm_model_name llm_account_id).

(** Lines 302-308: the body of [if st.button(tr("Save"))].  [config.save()]
    is taken to go through: a failure of the disk is outside this model. *)
Definition save_handler (locales : gmap string locale) (llm_provider : string)
    (f : fields) : M unit :=
  run app_set (llm_provider +:+ "_api_key") (llm_api_key f) in
  run app_set (llm_provider +:+ "_secret_key") (llm_secret_key f) in
  run app_set (llm_provider +:+ "_base_url") (llm_base_url f) in
  run app_set (llm_provider +:+ "_model_name") (llm_model_name f) in
  run app_set (llm_provider +:+ "_account_id") (llm_account_id f) in
  let* app := get_app in
  run emit (ConfigSave app) in
  let* message := tr locales "Configuration saved!" in
  emit (StSuccess message).

(** Lines 206-220: the provider select box; answers the active provider.
    [str_lower] is [str.lower] as line 206 applies it to the saved value,
    which may be any text: the model leaves that function open.  [lower],
    its restriction to ASCII text, is what lines 209 and 219 apply to the
    provider names of the list. *)
Definition select_provider (locales : gmap string locale) (str_lower : string → string)
    (u : interaction) : M string :=
  let* saved := app_get "llm_provider" "OpenAI" in
  let saved_llm_provider := str_lower saved in
  let index := saved_llm_provider_index saved_llm_provider in
  let* label := tr locales "LLM Provider" in
  let llm_provider := selectbox label llm_providers index (picked_provider u) in
  let llm_provider := lower llm_provider in
  run app_set "llm_provider" llm_provider in
  ret llm_provider.

(** One run of the column: the active provider, the values that seeded the
    form and the values the form holds. *)
Definition middle_config_panel (locales : gmap string locale)
    (str_lower : string → string) (u : interaction)
    : M (string * fields * fields) :=
  let* llm_provider := select_provider locales str_lower u in
  let* seeded := prefill llm_provider in
  let* form := form_inputs locales u seeded in
  let* label := tr locales "Save" in
  run (if button label (save_clicked u)
       then save_handler locales llm_provider form
       else ret tt) in
  ret (llm_provider, seeded, form).

(** The configuration after the five assignments of the Save handler. *)
Definition saved_app (llm_provider : string) (f : fields)
    (app : gmap string string) : gmap string string :=
  <[llm_provider +:+ "_account_id" := llm_account_id f]>
    (<[llm_provider +:+ "_model_name" := llm_model_name f]>
       (<[llm_provider +:+ "_base_url" := llm_base_url f]>
          (<[llm_provider +:+ "_secret_key" := llm_secret_key f]>
             (<[llm_provider +:+ "_api_key" := llm_api_key f]> app)))).

(** The five keys of a provider's namespace. *)
Definition credential_keys (llm_provider : string) : list string :=
  [llm_provider +:+ "_api_key"; llm_provider +:+ "_secret_key";
   llm_provider +:+ "_base_url"; llm_provider +:+ "_model_name";
   llm_provider +:+ "_account_id"].

(** A session whose language is set, with an empty configuration. *)
Definition english_session : world :=
  World {[ "ui_language" := "en-US" ]} ∅ [].

(** A run in which no widget holds anything of the user's. *)
Definition untouched : interaction :=
  Interaction None None None None None None false.

(** A run in which the user picks Ollama, types an API key, clears the base
    URL and the model name, and clicks Save. *)
Definition save_ollama_cleared : interaction :=
  Interaction (Some "Ollama") (Some "123") None (Some "") (Some "") None true.

(** A run in which the user picks OpenAI, fills in the form and clicks Save. *)
Definition save_openai_filled : interaction :=
  Interaction (Some "OpenAI") (Some "sk-1") None (Some "https://api.openai.com/v1")
              (Some "gpt-4o") None true.

(** A run in which the user picks [provider] and no text input holds typed
    text. *)
Definition just_pick (provider : string) : interaction :=
  Interaction (Some provider) None None None None None false.

End Settings.

(** ** The language column of the settings panel (lines 171-185) *)

(** The locale table is a dictionary: [codes] lists its keys in the order
    [locales.keys()] yields them, and [locales] answers the lookups.  The
    two lines that follow in the source, the Hide Log check box, store a
    boolean in [config.ui] and are not part of this model; [config_ui] holds
    the string entries of [config.ui]. *)

Module Language.
Import I18n Settings.

(** [c.isspace()] on one byte: tab, line feed, vertical tab, form feed,
    carriage return, the four separators 28-31 and the space (the
    whitespace outside ASCII is not covered). *)
Definition is_space (c : ascii) : bool :=
  let n := N_of_ascii c in
  ((9 <=? n) && (n <=? 13) || (28 <=? n) && (n <=? 32))%N.

Fixpoint lstrip (s : string) : string :=
  match s with
  | EmptyString => EmptyString
  | String c s' => if is_space c then lstrip s' else s
  end.

Fixpoint rstrip (s : string) : string :=
  match s with
  | EmptyString => EmptyString
  | String c s' =>
      match rstrip s' with
      | EmptyString => if is_space c then EmptyString else String c EmptyString
      | String _ _ as rest => String c rest
      end
  end.

(** [s.strip()]. *)
Definition strip (s : string) : string := lstrip (rstrip s).

(** [s.split(sep)[0]] for a separator that is not empty: the part of [s]
    before the first occurrence of [sep], all of [s] when there is none. *)
Fixpoint before_first (sep s : string) : string :=
  if String.prefix sep s then EmptyString
  else match s with
       | EmptyString => EmptyString
       | String c s' => String c (before_first sep s')
       end.

(** No byte of [s] is whitespace. *)
Fixpoint no_space (s : string) : bool :=
  match s with
  | EmptyString => true
  | String c s' => negb (is_space c) && no_space s'
  end.

(** Every byte of [s] is a printable ASCII character other than the space
    (codes 33 to 126), as in the locale codes [zh-CN] or [en-US]. *)
Fixpoint plain (s : string) : bool :=
  match s with
  | EmptyString => true
  | String c s' =>
      let n := N_of_ascii c in
      ((33 <=? n) && (n <=? 126))%N && plain s'
  end.

(** The f-string of line 175; a missing [Language] prints as [None]. *)
Definition display_language (code : string) (loc : locale) : string :=
  code +:+ " - " +:+ default "None" (Language loc).

Definition session_set (k v : string) : M unit :=
  λ w, (Ok tt, World (<[k:=v]> (session_state w)) (config_app w) (effects w)).

(** The loop of lines 174-177; no [break], so the last match wins. *)
Fixpoint language_loop (locales : gmap string locale) (rest : list (nat * string))
    (display_languages : list string) (selected_index : nat)
    : M (list string * nat) :=
  match rest with
  | [] => ret (display_languages, selected_index)
  | (i, code) :: rest' =>
      let* loc := lift (getitem locales code) in
      let display_languages := display_languages ++ [display_language code loc] in
      let* ss := get_session in
      let* ui_language := lift (getitem ss "ui_language") in
      let selected_index := if String.eqb code ui_language then i else selected_index in
      language_loop locales rest' display_languages selected_index
  end.

(** Lines 172-185: [picked] is the entry the user picked in the select box,
    if any; the answer is [config.ui] after the run. *)
Definition language_column (codes : list string) (locales : gmap string locale)
    (picked : option string) (config_ui : gmap string string)
    : M (gmap string string) :=
  let* (display_languages, selected_index) :=
    language_loop locales (enumerate codes) [] 0 in
  let* label := tr locales "Language" in
  let selected_language := selectbox label display_languages selected_index picked in
  if truthy selected_language then
    let code := strip (before_first " - " selected_language) in
    run session_set "ui_language" code in
    ret (<["language" := code]> config_ui)
  else ret config_ui.

(** A table of two locales, and a session whose language is the second. *)
Definition two_codes : list string := ["zh-CN"; "en-US"].
Definition two_locales : gmap string locale :=
  <["zh-CN" := Locale (Some "Chinese") None]>
    (<["en-US" := Locale (Some "English") None]> ∅).

End Language.

(** * Properties *)

(** ** Strings *)

Lemma ascii_compare_N (a b : ascii) :
  Ascii.compare a b = N.compare (N_of_ascii a) (N_of_ascii b).
Proof. reflexivity. Qed.

Lemma string_compare_refl (s : string) : String.compare s s = Eq.
Proof.
  induction s as [|c s IH]; simpl; [done|].
  rewrite ascii_compare_N, N.compare_refl. exact IH.
Qed.

(** [String.compare] is a lexicographic order: [Lt] and [Eq] compose. *)
Lemma string_compare_trans (s1 s2 s3 : string) :
  String.compare s1 s2 ≠ Gt → String.compare s2 s3 ≠ Gt → String.compare s1 s3 ≠ Gt.
Proof.
  revert s2 s3. induction s1 as [|a s1 IH]; intros [|b s2] [|c s3]; simpl; try done.
  rewrite !ascii_compare_N.
  destruct (N.compare_spec (N_of_ascii a) (N_of_ascii b)) as [Hab|Hab|Hab];
    destruct (N.compare_spec (N_of_ascii b) (N_of_ascii c)) as [Hbc|Hbc|Hbc];
    try done; intros H12 H23.
  - rewrite Hab, Hbc, N.compare_refl. by apply (IH s2).
  - rewrite Hab. by apply N.compare_lt_iff in Hbc as ->.
  - rewrite <- Hbc. by apply N.compare_lt_iff in Hab as ->.
  - assert (N_of_ascii a < N_of_ascii c)%N as Hac by lia.
    by apply N.compare_lt_iff in Hac as ->.
Qed.

Lemma str_le_alt (s1 s2 : string) : str_le s1 s2 ↔ String.compare s1 s2 ≠ Gt.
Proof.
  unfold str_le, String.leb.
  destruct (String.compare s1 s2); simpl; split; congruence.
Qed.

#[global] Instance str_le_total : Total str_le.
Proof. intros s1 s2. apply String.leb_total. Qed.

#[global] Instance str_le_trans : Transitive str_le.
Proof.
  intros s1 s2 s3. rewrite !str_le_alt. apply string_compare_trans.
Qed.

#[global] Instance str_le_antisymm : AntiSymm (=) str_le.
Proof. intros s1 s2. apply String.leb_antisym. Qed.

Lemma append_inj_l (p a b : string) : p +:+ a = p +:+ b → a = b.
Proof. induction p as [|c p IH]; simpl; [done|]. intros [=]. auto. Qed.

Lemma endswith_unfold (s suffix : string) :
  endswith s suffix =
  if String.eqb s suffix then true
  else match s with EmptyString => false | String _ s' => endswith s' suffix end.
Proof. by destruct s. Qed.

Lemma endswith_append (p suffix : string) : endswith (p +:+ suffix) suffix = true.
Proof.
  induction p as [|c p IH]; rewrite endswith_unfold.
  - change ("" +:+ suffix) with suffix. by rewrite String.eqb_refl.
  - change (String c p +:+ suffix) with (String c (p +:+ suffix)). cbv iota.
    rewrite IH. by destruct (String.eqb _ _).
Qed.

Lemma endswith_iff (s suffix : string) :
  endswith s suffix = true ↔ ∃ stem, s = stem +:+ suffix.
Proof.
  split.
  - induction s as [|c s IH]; rewrite endswith_unfold.
    + destruct (String.eqb_spec "" suffix) as [<-|]; [|done]. by exists "".
    + destruct (String.eqb_spec (String c s) suffix) as [<-|]; [by exists ""|].
      intros [stem ->]%IH. by exists (String c stem).
  - intros [stem ->]. apply endswith_append.
Qed.


(** ** The monad *)

Ltac unfold_m :=
  unfold bind, ret, raise, lift, try_except, get_session, get_app, app_get,
    app_set, emit, set_app, add_effect in *.

(** ** Session state *)

Section session.
Import Session.

Lemma init_key_keeps (k v : string) (ss : gmap string string) (k' v' : string) :
  ss !! k' = Some v' → init_key k v ss !! k' = Some v'.
Proof.
  intros Hk'. unfold init_key. destruct (ss !! k) eqn:Hk; [done|].
  rewrite lookup_insert_ne; [done|]. congruence.
Qed.

Lemma init_key_fresh (k v : string) (ss : gmap string string) :
  ss !! k = None → init_key k v ss !! k = Some v.
Proof. intros Hk. unfold init_key. rewrite Hk. apply lookup_insert_eq. Qed.

Lemma init_key_is_Some (k v : string) (ss : gmap string string) :
  is_Some (init_key k v ss !! k).
Proof.
  unfold init_key. destruct (ss !! k) eqn:Hk.
  - by rewrite Hk.
  - rewrite lookup_insert_eq. by eexists.
Qed.

(** C8. A session with no key set leaves the initialization block with
    [video_subject], [video_script] and [video_terms] all equal to the empty
    string (and with [ui_language] set); a key that is already present keeps
    the value it has. *)
Theorem init_session_state_defaults (config_ui : gmap string string)
    (system_locale : string) :
  (let ss := init_session_state config_ui system_locale ∅ in
   ss !! "video_subject" = Some "" ∧ ss !! "video_script" = Some ""
   ∧ ss !! "video_terms" = Some "" ∧ is_Some (ss !! "ui_language"))
  ∧ (∀ (ss : gmap string string) (k v : string),
       ss !! k = Some v →
       init_session_state config_ui system_locale ss !! k = Some v).
Proof.
  split.
  - cbv zeta. unfold init_session_state.
    split; [|split; [|split]].
    + do 3 apply init_key_keeps. by apply init_key_fresh.
    + do 2 apply init_key_keeps. by apply init_key_fresh.
    + apply init_key_keeps. by apply init_key_fresh.
    + apply init_key_is_Some.
  - intros ss k v Hk. unfold init_session_state.
    by do 4 apply init_key_keeps.
Qed.

Lemma init_session_state_defaults_witness :
  init_session_state ∅ "en-US" {[ "video_script" := "Hello" ]} !! "video_script"
  = Some "Hello".
Proof.
  apply (proj2 (init_session_state_defaults ∅ "en-US")).
  apply lookup_singleton_eq.
Defined.

End session.

(** ** Translations *)

Section i18n.
Import I18n.

Lemma tr_eval (locales : gmap string locale) (key code : string) (w : world) :
  session_state w !! "ui_language" = Some code →
  tr locales key w
  = (Ok (default key
           (default ∅ (Translation (default empty_locale (locales !! code))) !! key)), w).
Proof. intros Hlang. unfold tr, getitem. unfold_m. by rewrite Hlang. Qed.

Lemma tr_total (locales : gmap string locale) (key code : string) (w : world) :
  session_state w !! "ui_language" = Some code →
  ∃ text, tr locales key w = (Ok text, w).
Proof. intros Hlang. eexists. by apply tr_eval. Qed.

(** C4. When the active language is a code of the locale table, [tr key] is
    the text the locale's translation table holds for [key], and [key]
    itself when the table has no entry for it. *)
Theorem tr_known_locale (locales : gmap string locale) (w : world)
    (code key : string) (loc : locale) :
  session_state w !! "ui_language" = Some code →
  locales !! code = Some loc →
  (∀ (table : gmap string string) (text : string),
     Translation loc = Some table → table !! key = Some text →
     tr locales key w = (Ok text, w))
  ∧ ((∀ table : gmap string string, Translation loc = Some table → table !! key = None) →
     tr locales key w = (Ok key, w)).
Proof.
  intros Hlang Hloc. rewrite (tr_eval _ _ code) by done. rewrite Hloc. simpl. split.
  - intros table text -> Hkey. simpl. by rewrite Hkey.
  - intros Habsent. destruct (Translation loc) as [table|]; simpl.
    + by rewrite (Habsent table).
    + by rewrite lookup_empty.
Qed.

Lemma tr_known_locale_witness :
  let table : gmap string string := {[ "Save" := "Speichern" ]} in
  let locales : gmap string locale := {[ "de-DE" := Locale (Some "Deutsch") (Some table) ]} in
  let w := World {[ "ui_language" := "de-DE" ]} ∅ [] in
  tr locales "Save" w = (Ok "Speichern", w).
Proof.
  intros table locales w.
  eapply (proj1 (tr_known_locale locales w "de-DE" "Save"
                   (Locale (Some "Deutsch") (Some table)) _ _)); [reflexivity|].
  apply lookup_singleton_eq.
  Unshelve.
  - apply lookup_singleton_eq.
  - apply lookup_singleton_eq.
Defined.

(** C10. When the active language is no code of the locale table, [tr key]
    returns [key] unchanged and does not raise. *)
Theorem tr_unknown_locale (locales : gmap string locale) (w : world)
    (code key : string) :
  session_state w !! "ui_language" = Some code →
  locales !! code = None →
  tr locales key w = (Ok key, w).
Proof.
  intros Hlang Hloc. rewrite (tr_eval _ _ code) by done. rewrite Hloc. simpl.
  by rewrite lookup_empty.
Qed.

Lemma tr_unknown_locale_witness :
  let locales : gmap string locale := {[ "de-DE" := Locale (Some "Deutsch") None ]} in
  let w := World {[ "ui_language" := "xx-XX" ]} ∅ [] in
  tr locales "Save" w = (Ok "Save", w).
Proof.
  intros locales w.
  apply (tr_unknown_locale locales w "xx-XX" "Save").
  - apply lookup_singleton_eq.
  - by apply lookup_singleton_ne.
Defined.

End i18n.

(** ** Asset scanners *)

Section assets.
Import Assets.

Lemma inner_loop_filter (keep : string → bool) (files acc : list string) :
  fold_left (λ acc file, if keep file then acc ++ [file] else acc) files acc
  = acc ++ List.filter keep files.
Proof.
  revert acc. induction files as [|file files IH]; intros acc; simpl.
  - by rewrite app_nil_r.
  - rewrite IH. destruct (keep file); [|done].
    by rewrite <- app_assoc.
Qed.

Lemma outer_loop_filter (keep : string → bool)
    (walked : list (string * list string * list string)) (acc : list string) :
  fold_left
    (λ acc entry,
       fold_left (λ acc file, if keep file then acc ++ [file] else acc)
                 (snd entry) acc)
    walked acc
  = acc ++ List.filter keep (flat_map snd walked).
Proof.
  revert acc. induction walked as [|entry walked IH]; intros acc; simpl.
  - by rewrite app_nil_r.
  - rewrite IH, inner_loop_filter, List.filter_app. by rewrite <- app_assoc.
Qed.

Lemma scan_filter (keep : string → bool)
    (walked : list (string * list string * list string)) :
  scan keep walked = List.filter keep (flat_map snd walked).
Proof. unfold scan. by rewrite outer_loop_filter. Qed.

(** The file lists of a walk, put end to end, are the file names below the
    directory. *)
Fixpoint walk_file_names (root : string) (d : dir) {struct d} :
  flat_map snd (walk root d) = file_names d.
Proof.
  destruct d as [files subdirs]. simpl. f_equal.
  induction subdirs as [|[name sub] subdirs IH]; simpl; [done|].
  rewrite flat_map_app, IH. f_equal. apply walk_file_names.
Qed.

Lemma os_walk_file_names (root : string) (top : option dir) :
  flat_map snd (os_walk root top) = names_below top.
Proof. destruct top as [d|]; simpl; [apply walk_file_names|done]. Qed.

Lemma get_all_songs_walk_order (song_dir : string) (top : option dir) :
  get_all_songs song_dir top = List.filter is_song (names_below top).
Proof. unfold get_all_songs. by rewrite scan_filter, os_walk_file_names. Qed.

Lemma is_font_iff (file : string) :
  is_font file = true ↔ ∃ stem, file = stem +:+ ".ttf" ∨ file = stem +:+ ".ttc".
Proof.
  unfold is_font. rewrite orb_true_iff, !endswith_iff.
  split.
  - intros [[stem ->]|[stem ->]]; exists stem; auto.
  - intros [stem [->| ->]]; [left|right]; by exists stem.
Qed.

(** C5. [get_all_fonts] returns the names of the files below the font
    directory that end in [.ttf] or [.ttc], each as often as it occurs, in
    ascending order; it is the only ascending arrangement of them, and for
    the files [b.ttf], [a.ttc], [x.txt] it is [a.ttc], [b.ttf]. *)
Theorem get_all_fonts_sorted_names (font_dir : string) (top : option dir) :
  let fonts := get_all_fonts font_dir top in
  StronglySorted str_le fonts
  ∧ fonts ≡ₚ List.filter is_font (names_below top)
  ∧ (∀ file, file ∈ fonts ↔
       file ∈ names_below top
       ∧ ∃ stem, file = stem +:+ ".ttf" ∨ file = stem +:+ ".ttc")
  ∧ (∀ other, Sorted str_le other → other ≡ₚ List.filter is_font (names_below top) →
       other = fonts)
  ∧ get_all_fonts font_dir (Some (Dir ["b.ttf"; "a.ttc"; "x.txt"] []))
    = ["a.ttc"; "b.ttf"].
Proof.
  cbv zeta.
  assert (get_all_fonts font_dir top ≡ₚ List.filter is_font (names_below top)) as Hperm.
  { unfold get_all_fonts. rewrite merge_sort_Permutation.
    by rewrite scan_filter, os_walk_file_names. }
  assert (Sorted str_le (get_all_fonts font_dir top)) as Hsorted.
  { apply (Sorted_merge_sort str_le). }
  split; [by apply Sorted_StronglySorted; [apply _|]|].
  split; [done|]. split; [|split].
  - intros file. rewrite Hperm, !list_elem_of_In, List.filter_In, is_font_iff.
    done.
  - intros other Hother Hother_perm.
    apply (Sorted_unique str_le); [done..|]. by rewrite Hperm.
  - reflexivity.
Qed.

Lemma get_all_fonts_sorted_names_witness :
  ["Z.ttf"; "a.ttc"; "b.ttf"]
  = get_all_fonts "fonts" (Some (Dir ["b.ttf"; "x.txt"] [("more", Dir ["a.ttc"; "Z.ttf"] [])])).
Proof.
  apply (proj1 (proj2 (proj2 (proj2
           (get_all_fonts_sorted_names "fonts"
              (Some (Dir ["b.ttf"; "x.txt"] [("more", Dir ["a.ttc"; "Z.ttf"] [])]))))))).
  - repeat constructor.
  - exact (Permutation_rev ["Z.ttf"; "a.ttc"; "b.ttf"]).
Defined.

End assets.

(** ** Opening a task folder *)

Section task_folder.
Import TaskFolder.

Variable h : host.
Variables root_dir task_id : string.

Ltac task_folder_cases :=
  repeat match goal with
         | |- _ ∧ _ => split
         | |- ∀ _, _ => intro
         end;
  simplify_eq; done || congruence.

Lemma open_task_folder_returns (w : world) :
  (open_task_folder h root_dir task_id w).1 = Ok tt.
Proof.
  unfold open_task_folder, os_system. unfold_m.
  destruct (platform_system h) as [sys|e]; [|done].
  destruct (path_join h _) as [path|e]; [|done].
  destruct (path_exists h path) as [[]|e]; [|done..].
  destruct (String.eqb sys "Windows"), (String.eqb sys "Darwin");
    repeat (destruct (os_system_status h _); simpl); done.
Qed.

(** C7. [open_task_folder] never raises and touches neither the session
    state nor the configuration.  When the folder exists it runs [start] on
    the task path on ["Windows"] and [open] on ["Darwin"], and nothing
    for any other system; when the folder does not exist it runs nothing.
    An exception raised by any of the calls it makes is logged, and nothing
    else is logged. *)
Theorem open_task_folder_cases (w : world) :
  let after := open_task_folder h root_dir task_id w in
  after.1 = Ok tt
  ∧ session_state after.2 = session_state w
  ∧ config_app after.2 = config_app w
  ∧ (∀ sys path,
       platform_system h = Ok sys → path_join h [root_dir; "storage"; "tasks"; task_id] = Ok path →
       (path_exists h path = Ok false → effects after.2 = effects w)
       ∧ (path_exists h path = Ok true →
          (sys = "Windows" →
             (∀ status, os_system_status h ("start " +:+ path) = Ok status →
                effects after.2 = effects w ++ [OsSystem ("start " +:+ path)])
             ∧ (∀ e, os_system_status h ("start " +:+ path) = Raise e →
                  effects after.2 = effects w ++ [LoggerError "" e]))
          ∧ (sys = "Darwin" →
               (∀ status, os_system_status h ("open " +:+ path) = Ok status →
                  effects after.2 = effects w ++ [OsSystem ("open " +:+ path)])
               ∧ (∀ e, os_system_status h ("open " +:+ path) = Raise e →
                    effects after.2 = effects w ++ [LoggerError "" e]))
          ∧ (sys ≠ "Windows" → sys ≠ "Darwin" → effects after.2 = effects w))
       ∧ (∀ e, path_exists h path = Raise e →
            effects after.2 = effects w ++ [LoggerError "" e]))
  ∧ (∀ e, platform_system h = Raise e →
       effects after.2 = effects w ++ [LoggerError "" e])
  ∧ (∀ sys e, platform_system h = Ok sys → path_join h [root_dir; "storage"; "tasks"; task_id] = Raise e →
       effects after.2 = effects w ++ [LoggerError "" e]).
Proof.
  cbv zeta. split; [apply open_task_folder_returns|].
  unfold open_task_folder, os_system. unfold_m.
  destruct (platform_system h) as [sys|e0] eqn:Hsys; simpl;
    [destruct (path_join h _) as [path|e0] eqn:Hjoin; simpl;
      [destruct (path_exists h path) as [[]|e0] eqn:Hexists; simpl;
        [destruct (String.eqb_spec sys "Windows") as [->|Hwin]; simpl;
          [destruct (os_system_status h ("start " +:+ path)) eqn:Hstart
          |destruct (String.eqb_spec sys "Darwin") as [->|Hmac]; simpl;
            [destruct (os_system_status h ("open " +:+ path)) eqn:Hopen|]]
        | |]
      |]
    |];
    simpl; task_folder_cases.
Qed.

End task_folder.

Lemma open_task_folder_cases_witness :
  effects (TaskFolder.open_task_folder TaskFolder.windows_host "C:\app" "t1" (World ∅ ∅ [])).2
  = [OsSystem "start C:\app\storage\tasks\t1"].
Proof.
  destruct (open_task_folder_cases TaskFolder.windows_host "C:\app" "t1" (World ∅ ∅ []))
    as (_ & _ & _ & Hcalls & _).
  destruct (Hcalls "Windows" "C:\app\storage\tasks\t1" eq_refl eq_refl)
    as (_ & Hfound & _).
  destruct (Hfound eq_refl) as (Hwindows & _).
  destruct (Hwindows eq_refl) as (Hstart & _).
  exact (Hstart 0%Z eq_refl).
Defined.

(** ** Credential validation *)

Section validation.
Import Validation.

Lemma validate_fields_well_typed (kwargs : string → option pyval) :
  accepts_required (kwargs "api_key")
  && accepts_optional (kwargs "secret_key")
  && accepts_optional (kwargs "base_url")
  && accepts_optional (kwargs "model_name")
  && accepts_optional (kwargs "account_id") = true →
  ∃ model, validate_fields kwargs = Ok model
           ∧ kwargs "api_key" = Some (PStr (api_key model)).
Proof.
  unfold validate_fields, required_str, optional_str.
  destruct (kwargs "api_key") as [[| |[]]|]; try done.
  destruct (kwargs "secret_key") as [[| |[]]|]; try done;
    destruct (kwargs "base_url") as [[| |[]]|]; try done;
    destruct (kwargs "model_name") as [[| |[]]|]; try done;
    destruct (kwargs "account_id") as [[| |[]]|]; try done;
    intros _; by eexists.
Qed.

(** Field validation ends in a model or in a validation error, never in
    another exception. *)
Lemma validate_fields_cases (kwargs : string → option pyval) :
  (∃ model, validate_fields kwargs = Ok model)
  ∨ (∃ e, validate_fields kwargs = Raise e ∧ exn_cls e = ValidationError).
Proof.
  unfold validate_fields.
  destruct (required_str kwargs "api_key"), (optional_str kwargs "secret_key"),
    (optional_str kwargs "base_url"), (optional_str kwargs "model_name"),
    (optional_str kwargs "account_id");
    (by left; eexists) || (by right; eexists).
Qed.

Lemma validate_fields_no_api_key (kwargs : string → option pyval) :
  kwargs "api_key" = None ∨ kwargs "api_key" = Some PNone →
  ∃ e, validate_fields kwargs = Raise e ∧ exn_cls e = ValidationError.
Proof.
  intros Hkey. unfold validate_fields.
  assert (∃ err, required_str kwargs "api_key" = inl err) as [err ->].
  { unfold required_str. destruct Hkey as [-> | ->]; by eexists. }
  destruct (optional_str kwargs "secret_key"),
    (optional_str kwargs "base_url"), (optional_str kwargs "model_name"),
    (optional_str kwargs "account_id"); by eexists.
Qed.

(** The payload [{"api_key": None}] holds every required field, yet it is
    rejected: the result is [None]. *)
Lemma validate_config_api_key_None :
  let config_data : gmap pykey pyval := {[ KStr "api_key" := PNone ]} in
  is_Some (config_data !! KStr "api_key")
  ∧ (validate_config config_data (World ∅ ∅ [])).1 = Ok None.
Proof.
  cbv zeta. split.
  - rewrite lookup_singleton_eq. by eexists.
  - unfold validate_config, ConfigModel_init. unfold_m.
    rewrite bool_decide_true by (by apply map_Forall_singleton).
    unfold validate_fields, required_str, optional_str.
    rewrite lookup_singleton_eq.
    by rewrite !lookup_singleton_ne by done.
Qed.

(** A key that is no string makes the constructor call raise [TypeError],
    which [validate_config] does not catch. *)
Lemma validate_config_int_key_raises (w : world) :
  (validate_config {[ KInt 1 := PStr "x" ]} w).1
  = Raise (Exn TypeError "keywords must be strings").
Proof.
  unfold validate_config, ConfigModel_init. unfold_m.
  rewrite bool_decide_false; [done|].
  intros Hall. by specialize (Hall (KInt 1) (PStr "x") (lookup_singleton_eq _ _)).
Qed.

(** C2, as the code has it.  On a mapping whose keys are all strings
    [validate_config] never raises.  It returns a model, and logs nothing,
    when [api_key] is a string and each optional field is a string, [None]
    or left out; the model carries that [api_key].  When [api_key] is left
    out, or is [None], it logs one validation error and returns [None]. *)
Theorem validate_config_string_keys (config_data : gmap pykey pyval) (w : world) :
  map_Forall (λ k _, is_str_key k = true) config_data →
  let out := validate_config config_data w in
  is_ok out.1 = true
  ∧ (well_typed config_data = true →
     ∃ model, out = (Ok (Some model), w)
              ∧ config_data !! KStr "api_key" = Some (PStr (api_key model)))
  ∧ (config_data !! KStr "api_key" = None
     ∨ config_data !! KStr "api_key" = Some PNone →
     ∃ e, exn_cls e = ValidationError
          ∧ out = (Ok None,
                   add_effect (LoggerError "Configuration validation error: " e) w)).
Proof.
  intros Hkeys. cbv zeta.
  unfold validate_config, ConfigModel_init. unfold_m.
  rewrite bool_decide_true by done.
  split; [|split].
  - destruct (validate_fields_cases (λ field, config_data !! KStr field))
      as [(model & ->)|(e & -> & Hcls)]; [done|].
    simpl. by rewrite Hcls.
  - intros Htyped. unfold well_typed in Htyped.
    apply (validate_fields_well_typed (λ field, config_data !! KStr field))
      in Htyped as (model & -> & Hkey).
    by exists model.
  - intros Hkey.
    apply (validate_fields_no_api_key (λ field, config_data !! KStr field))
      in Hkey as (e & -> & Hcls).
    simpl. rewrite Hcls. by exists e.
Qed.

Lemma validate_config_string_keys_witness :
  ∃ model, validate_config example_config_data (World ∅ ∅ [])
           = (Ok (Some model), World ∅ ∅ [])
           ∧ example_config_data !! KStr "api_key" = Some (PStr (api_key model)).
Proof.
  assert (map_Forall (λ (k : pykey) (_ : pyval), is_str_key k = true)
            example_config_data) as Hkeys.
  { unfold example_config_data.
    repeat (apply map_Forall_insert_2; [reflexivity|]).
    apply map_Forall_empty. }
  apply (proj1 (proj2 (validate_config_string_keys example_config_data
                         (World ∅ ∅ []) Hkeys))).
  unfold well_typed, example_config_data.
  rewrite lookup_insert_eq.
  do 1 (rewrite lookup_insert_ne by done). rewrite lookup_insert_eq.
  do 2 (rewrite lookup_insert_ne by done). rewrite lookup_insert_eq.
  do 3 (rewrite lookup_insert_ne by done). rewrite lookup_insert_eq.
  do 4 (rewrite lookup_insert_ne by done). rewrite lookup_insert_eq.
  reflexivity.
Defined.

End validation.

(** ** The LLM provider column *)

Section settings.
Import I18n Settings.

Local Set Default Proof Using "Type".

Variable locales : gmap string locale.
Variable str_lower : string → string.

(** *** The provider select box *)

Lemma provider_loop_no_match (saved : string) (rest : list (nat * string)) (index : nat) :
  (∀ i provider, (i, provider) ∈ rest → lower provider ≠ saved) →
  provider_loop saved rest index = index.
Proof.
  induction rest as [|[i provider] rest IH]; intros Hnone; simpl; [done|].
  destruct (String.eqb_spec (lower provider) saved) as [Heq|_].
  - exfalso. apply (Hnone i provider); [|done]. apply elem_of_cons. by left.
  - apply IH. intros j other Hin. apply (Hnone j). apply elem_of_cons. by right.
Qed.

Lemma saved_llm_provider_index_no_match (saved : string) :
  (∀ provider, provider ∈ llm_providers → lower provider ≠ saved) →
  saved_llm_provider_index saved = 0.
Proof.
  intros Hnone. apply provider_loop_no_match.
  intros i provider Hin. apply Hnone. unfold enumerate in Hin.
  by apply elem_of_zip_r in Hin.
Qed.

Lemma select_provider_eval (u : interaction) (w : world) (code : string) :
  session_state w !! "ui_language" = Some code →
  let saved := default "OpenAI" (config_app w !! "llm_provider") in
  let llm_provider :=
    lower (default (nth (saved_llm_provider_index (str_lower saved)) llm_providers "")
                   (picked_provider u)) in
  select_provider locales str_lower u w
  = (Ok llm_provider, set_app (insert "llm_provider" llm_provider) w).
Proof.
  intros Hlang. cbv zeta. unfold select_provider, selectbox. unfold_m.
  by rewrite (tr_eval _ _ code).
Qed.

(** C9. When the saved [llm_provider], lowered by [str.lower], is the
    lowered name of none of the eleven providers, the select box starts at
    index 0; left alone, it answers ["OpenAI"], and ["openai"] becomes the
    active provider. *)
Theorem unmatched_provider_selects_OpenAI (u : interaction) (w : world) (code : string) :
  session_state w !! "ui_language" = Some code →
  let saved := default "OpenAI" (config_app w !! "llm_provider") in
  (∀ provider, provider ∈ llm_providers → lower provider ≠ str_lower saved) →
  saved_llm_provider_index (str_lower saved) = 0
  ∧ nth (saved_llm_provider_index (str_lower saved)) llm_providers "" = "OpenAI"
  ∧ (picked_provider u = None →
     select_provider locales str_lower u w
     = (Ok "openai", set_app (insert "llm_provider" "openai") w)).
Proof.
  intros Hlang saved Hnone.
  pose proof (saved_llm_provider_index_no_match (str_lower saved) Hnone) as Hindex.
  split; [done|]. split; [by rewrite Hindex|].
  intros Hpicked. rewrite (select_provider_eval u w code Hlang).
  fold saved. by rewrite Hindex, Hpicked.
Qed.

(** *** The Save handler *)

Lemma saved_app_lookup (p : string) (f : fields) (app : gmap string string) :
  saved_app p f app !! (p +:+ "_api_key") = Some (llm_api_key f)
  ∧ saved_app p f app !! (p +:+ "_secret_key") = Some (llm_secret_key f)
  ∧ saved_app p f app !! (p +:+ "_base_url") = Some (llm_base_url f)
  ∧ saved_app p f app !! (p +:+ "_model_name") = Some (llm_model_name f)
  ∧ saved_app p f app !! (p +:+ "_account_id") = Some (llm_account_id f).
Proof.
  unfold saved_app.
  repeat split;
    repeat (rewrite lookup_insert_ne by (by intros ?%append_inj_l));
    by rewrite lookup_insert_eq.
Qed.

Lemma saved_app_frame (p : string) (f : fields) (app : gmap string string) (k : string) :
  k ∉ credential_keys p → saved_app p f app !! k = app !! k.
Proof.
  unfold credential_keys, saved_app. intros Hk.
  repeat (rewrite lookup_insert_ne;
          [|intros <-; apply Hk;
            repeat first [apply list_elem_of_here | apply list_elem_of_further]]).
  done.
Qed.

Lemma save_handler_eval (p : string) (f : fields) (w : world) (code : string) :
  session_state w !! "ui_language" = Some code →
  ∃ message,
    tr locales "Configuration saved!" w = (Ok message, w)
    ∧ save_handler locales p f w
      = (Ok tt, World (session_state w) (saved_app p f (config_app w))
                  (effects w ++ [ConfigSave (saved_app p f (config_app w));
                                 StSuccess message])).
Proof.
  intros Hlang. eexists. split; [by apply (tr_eval _ _ code)|].
  unfold save_handler. unfold_m. rewrite (tr_eval _ _ code) by done.
  simpl. by rewrite <- app_assoc.
Qed.

(** The Save handler on its own: the five keys of the namespace are
    assigned, the configuration is written once with them, then the
    confirmation is shown; no other key changes. *)
Lemma save_handler_frame (p : string) (f : fields) (w : world) (code : string) :
  session_state w !! "ui_language" = Some code →
  ∃ (after : world) (message : string),
    save_handler locales p f w = (Ok tt, after)
    ∧ session_state after = session_state w
    ∧ effects after = effects w ++ [ConfigSave (config_app after); StSuccess message]
    ∧ config_app after !! (p +:+ "_api_key") = Some (llm_api_key f)
    ∧ config_app after !! (p +:+ "_secret_key") = Some (llm_secret_key f)
    ∧ config_app after !! (p +:+ "_base_url") = Some (llm_base_url f)
    ∧ config_app after !! (p +:+ "_model_name") = Some (llm_model_name f)
    ∧ config_app after !! (p +:+ "_account_id") = Some (llm_account_id f)
    ∧ (∀ k, k ∉ credential_keys p → config_app after !! k = config_app w !! k).
Proof.
  intros Hlang.
  destruct (save_handler_eval p f w code Hlang) as (message & _ & Heval).
  eexists _, message. split; [exact Heval|]. simpl.
  split; [done|]. split; [done|].
  pose proof (saved_app_lookup p f (config_app w)) as (? & ? & ? & ? & ?).
  repeat (split; [done|]).
  intros k Hk. by apply saved_app_frame.
Qed.

Lemma tips_shown :
  truthy ollama_tips = true ∧ truthy openai_tips = true
  ∧ truthy azure_tips = true ∧ truthy moonshot_tips = true.
Proof. by repeat split. Qed.

Lemma prefill_eval (p : string) (w : world) :
  ∃ f w',
    prefill p w = (Ok f, w')
    ∧ session_state w' = session_state w
    ∧ config_app w' = config_app w
    ∧ effects w'
      = effects w
        ++ (if String.eqb p "ollama" then [StMarkdown ollama_tips]
            else if String.eqb p "openai" then [StMarkdown openai_tips]
            else if String.eqb p "azure" then [StMarkdown azure_tips]
            else if String.eqb p "moonshot" then [StMarkdown moonshot_tips]
            else [])
    ∧ llm_api_key f = default "" (config_app w !! (p +:+ "_api_key"))
    ∧ llm_secret_key f = default "" (config_app w !! (p +:+ "_secret_key"))
    ∧ llm_account_id f = default "" (config_app w !! (p +:+ "_account_id"))
    ∧ llm_base_url f
      = (let saved := default "" (config_app w !! (p +:+ "_base_url")) in
         if String.eqb p "ollama" && negb (truthy saved)
         then "http://localhost:11434/v1" else saved)
    ∧ llm_model_name f
      = (let saved := default "" (config_app w !! (p +:+ "_model_name")) in
         if String.eqb p "ollama" && negb (truthy saved)
         then "qwen:7b" else saved).
Proof.
  destruct tips_shown as (Hollama & Hopenai & Hazure & Hmoonshot).
  destruct w as [ss app fx].
  unfold prefill, read_fields, provider_defaults. unfold_m. cbn [config_app].
  destruct (String.eqb_spec p "ollama") as [->|Hp1];
    [|destruct (String.eqb_spec p "openai") as [->|Hp2];
      [|destruct (String.eqb_spec p "azure") as [->|Hp3];
        [|destruct (String.eqb_spec p "moonshot") as [->|Hp4]]]].
  all: try (cbv [String.append]).
  all: cbn.
  all: repeat match goal with
              | |- context [truthy (default "" ?x)] =>
                  destruct (default "" x) eqn:?; cbn
              end.
  all: rewrite ?Hollama, ?Hopenai, ?Hazure, ?Hmoonshot; cbn.
  all: eexists _, _; split; [reflexivity|]; cbn.
  all: rewrite ?app_nil_r.
  all: repeat split; done.
Qed.

Lemma form_inputs_eval (u : interaction) (f : fields) (w : world) (code : string) :
  session_state w !! "ui_language" = Some code →
  form_inputs locales u f w
  = (Ok (Fields (default (llm_api_key f) (typed_api_key u))
                (default (llm_secret_key f) (typed_secret_key u))
                (default (llm_base_url f) (typed_base_url u))
                (default (llm_model_name f) (typed_model_name u))
                (default (llm_account_id f) (typed_account_id u))), w).
Proof.
  intros Hlang. unfold form_inputs, text_input. unfold_m.
  by rewrite !(tr_eval _ _ code) by done.
Qed.

(** One run of the column, spelled out: the provider is selected, the form
    is seeded by [prefill], the inputs answer, and Save, when clicked,
    stores the form. *)
Lemma middle_config_panel_eval (u : interaction) (w : world) (code : string) :
  session_state w !! "ui_language" = Some code →
  let saved := default "OpenAI" (config_app w !! "llm_provider") in
  let p := lower (default (nth (saved_llm_provider_index (str_lower saved))
                               llm_providers "")
                          (picked_provider u)) in
  ∃ seeded w1 w',
    prefill p (set_app (insert "llm_provider" p) w) = (Ok seeded, w1)
    ∧ let form := Fields (default (llm_api_key seeded) (typed_api_key u))
                         (default (llm_secret_key seeded) (typed_secret_key u))
                         (default (llm_base_url seeded) (typed_base_url u))
                         (default (llm_model_name seeded) (typed_model_name u))
                         (default (llm_account_id seeded) (typed_account_id u)) in
      middle_config_panel locales str_lower u w = (Ok (p, seeded, form), w')
      ∧ session_state w' = session_state w
      ∧ config_app w'
        = (if save_clicked u
           then saved_app p form (<["llm_provider" := p]> (config_app w))
           else <["llm_provider" := p]> (config_app w))
      ∧ (save_clicked u = true → save_handler locales p form w1 = (Ok tt, w'))
      ∧ ∃ shown, effects w' = effects w1 ++ shown
                 ∧ (save_clicked u = false → shown = []).
Proof.
  intros Hlang saved p.
  destruct (prefill_eval p (set_app (insert "llm_provider" p) w))
    as (seeded & w1 & Hprefill & Hss & Happ & _).
  simpl in Hss, Happ.
  assert (session_state w1 !! "ui_language" = Some code) as Hlang1 by by rewrite Hss.
  destruct (save_handler_eval p
              (Fields (default (llm_api_key seeded) (typed_api_key u))
                      (default (llm_secret_key seeded) (typed_secret_key u))
                      (default (llm_base_url seeded) (typed_base_url u))
                      (default (llm_model_name seeded) (typed_model_name u))
                      (default (llm_account_id seeded) (typed_account_id u)))
              w1 code Hlang1) as (message & _ & Hsave).
  exists seeded, w1.
  unfold middle_config_panel, button.
  unfold bind at 1. rewrite (select_provider_eval u w code Hlang). fold saved p.
  unfold bind at 1. rewrite Hprefill.
  unfold bind at 1. rewrite (form_inputs_eval u seeded w1 code Hlang1).
  unfold bind at 1. rewrite (tr_eval _ _ code) by done.
  unfold bind, ret.
  destruct (save_clicked u).
  - rewrite Hsave. eexists. split; [done|]. cbv zeta. split; [done|].
    simpl. rewrite Hss, Happ. split; [done|]. split; [done|]. split; [done|].
    eexists. split; [done|]. done.
  - eexists. split; [done|]. cbv zeta. split; [done|].
    rewrite Hss, Happ. split; [done|]. split; [done|]. split; [done|].
    exists []. by rewrite app_nil_r.
Qed.

Lemma llm_provider_not_credential_key (p suffix : string) :
  endswith "llm_provider" suffix = false → "llm_provider" ≠ p +:+ suffix.
Proof.
  intros Hends Heq. rewrite Heq, endswith_append in Hends. done.
Qed.

Lemma lookup_credential_after_select (p chosen suffix : string)
    (app : gmap string string) :
  endswith "llm_provider" suffix = false →
  <["llm_provider" := chosen]> app !! (p +:+ suffix) = app !! (p +:+ suffix).
Proof.
  intros Hends. apply lookup_insert_ne. by apply llm_provider_not_credential_key.
Qed.

(** A run in which the user only picks a provider: the form shows the
    seeded values, and only the [llm_provider] entry is written. *)
Lemma just_pick_eval (name : string) (w : world) (code : string) :
  session_state w !! "ui_language" = Some code →
  let p := lower name in
  ∃ seeded w',
    middle_config_panel locales str_lower (just_pick name) w = (Ok (p, seeded, seeded), w')
    ∧ session_state w' = session_state w
    ∧ config_app w' = <["llm_provider" := p]> (config_app w)
    ∧ effects w'
      = effects w
        ++ (if String.eqb p "ollama" then [StMarkdown ollama_tips]
            else if String.eqb p "openai" then [StMarkdown openai_tips]
            else if String.eqb p "azure" then [StMarkdown azure_tips]
            else if String.eqb p "moonshot" then [StMarkdown moonshot_tips]
            else [])
    ∧ llm_api_key seeded = default "" (config_app w !! (p +:+ "_api_key"))
    ∧ llm_secret_key seeded = default "" (config_app w !! (p +:+ "_secret_key"))
    ∧ llm_account_id seeded = default "" (config_app w !! (p +:+ "_account_id"))
    ∧ llm_base_url seeded
      = (let saved := default "" (config_app w !! (p +:+ "_base_url")) in
         if String.eqb p "ollama" && negb (truthy saved)
         then "http://localhost:11434/v1" else saved)
    ∧ llm_model_name seeded
      = (let saved := default "" (config_app w !! (p +:+ "_model_name")) in
         if String.eqb p "ollama" && negb (truthy saved)
         then "qwen:7b" else saved).
Proof.
  intros Hlang p.
  destruct (middle_config_panel_eval (just_pick name) w code Hlang)
    as (seeded & w1 & w' & Hprefill & Hpanel & Hss & Happ & _ & shown & Hfx & Hshown).
  simpl in Hprefill, Hpanel, Happ, Hshown. fold p in Hprefill, Hpanel, Happ.
  destruct (prefill_eval p (set_app (insert "llm_provider" p) w))
    as (seeded' & w1' & Hprefill' & _ & _ & Hfx1 & Hapi & Hsecret & Haccount & Hurl & Hmodel).
  rewrite Hprefill in Hprefill'. injection Hprefill' as <- <-.
  simpl in Hfx1, Hapi, Hsecret, Haccount, Hurl, Hmodel.
  rewrite lookup_credential_after_select in Hapi, Hsecret, Haccount, Hurl, Hmodel by done.
  exists seeded, w'. rewrite Hpanel. destruct seeded; simpl in *.
  rewrite Hfx, (Hshown eq_refl), app_nil_r.
  repeat split; done.
Qed.

(** *** Defaults of the special-cased providers *)

Lemma tips_distinct : NoDup [ollama_tips; openai_tips; azure_tips; moonshot_tips; ""].
Proof.
  compute_done.
Qed.

(** C6, as the code has it.  Picking Ollama seeds the form with the saved
    model name and base URL, and with ["qwen:7b"] and
    ["http://localhost:11434/v1"] where the saved value is empty.  Picking
    OpenAI, Azure or Moonshot seeds every field with the value saved under
    the provider's own key, so an empty saved field stays empty.  Each of the
    four shows its own help text. *)
Theorem special_providers_prefill (w : world) (code : string) :
  session_state w !! "ui_language" = Some code →
  let saved key := default "" (config_app w !! key) in
  (∃ seeded w',
     middle_config_panel locales str_lower (just_pick "Ollama") w
     = (Ok ("ollama", seeded, seeded), w')
     ∧ effects w' = effects w ++ [StMarkdown ollama_tips]
     ∧ llm_model_name seeded
       = (if truthy (saved "ollama_model_name")
          then saved "ollama_model_name" else "qwen:7b")
     ∧ llm_base_url seeded
       = (if truthy (saved "ollama_base_url")
          then saved "ollama_base_url" else "http://localhost:11434/v1"))
  ∧ (∃ seeded w',
       middle_config_panel locales str_lower (just_pick "OpenAI") w
       = (Ok ("openai", seeded, seeded), w')
       ∧ effects w' = effects w ++ [StMarkdown openai_tips]
       ∧ llm_api_key seeded = saved "openai_api_key"
       ∧ llm_base_url seeded = saved "openai_base_url"
       ∧ llm_model_name seeded = saved "openai_model_name")
  ∧ (∃ seeded w',
       middle_config_panel locales str_lower (just_pick "Azure") w
       = (Ok ("azure", seeded, seeded), w')
       ∧ effects w' = effects w ++ [StMarkdown azure_tips]
       ∧ llm_api_key seeded = saved "azure_api_key"
       ∧ llm_base_url seeded = saved "azure_base_url"
       ∧ llm_model_name seeded = saved "azure_model_name")
  ∧ (∃ seeded w',
       middle_config_panel locales str_lower (just_pick "Moonshot") w
       = (Ok ("moonshot", seeded, seeded), w')
       ∧ effects w' = effects w ++ [StMarkdown moonshot_tips]
       ∧ llm_api_key seeded = saved "moonshot_api_key"
       ∧ llm_base_url seeded = saved "moonshot_base_url"
       ∧ llm_model_name seeded = saved "moonshot_model_name")
  ∧ NoDup [ollama_tips; openai_tips; azure_tips; moonshot_tips; ""].
Proof.
  intros Hlang saved. unfold saved.
  split; [|split; [|split; [|split; [|apply tips_distinct]]]].
  - destruct (just_pick_eval "Ollama" w code Hlang)
      as (seeded & w' & Hpanel & _ & _ & Hfx & _ & _ & _ & Hurl & Hmodel).
    exists seeded, w'. split; [exact Hpanel|]. split; [exact Hfx|].
    rewrite Hmodel, Hurl. cbv [String.append lower lower_ascii]. simpl.
    split; by destruct (truthy _).
  - destruct (just_pick_eval "OpenAI" w code Hlang)
      as (seeded & w' & Hpanel & _ & _ & Hfx & Hapi & _ & _ & Hurl & Hmodel).
    by exists seeded, w'.
  - destruct (just_pick_eval "Azure" w code Hlang)
      as (seeded & w' & Hpanel & _ & _ & Hfx & Hapi & _ & _ & Hurl & Hmodel).
    by exists seeded, w'.
  - destruct (just_pick_eval "Moonshot" w code Hlang)
      as (seeded & w' & Hpanel & _ & _ & Hfx & Hapi & _ & _ & Hurl & Hmodel).
    by exists seeded, w'.
Qed.

(** *** Saving, switching away and switching back *)

(** C1, as the code has it.  Save the form under provider [p], pick another
    provider [q] without saving, then pick [p] again.  The configuration
    still holds, under [p]'s keys, exactly the values that were saved, and
    the form shows them again, with one exception: for Ollama an empty saved
    base URL or model name comes back as the Ollama default. *)
Theorem saved_credentials_survive_switch (p q : string) (u1 u2 : interaction)
    (w0 : world) (code : string) :
  session_state w0 !! "ui_language" = Some code →
  picked_provider u1 = Some p → save_clicked u1 = true →
  picked_provider u2 = Some q → save_clicked u2 = false →
  ∃ seeded1 saved w1 seeded2 form2 w2 form3 w3,
    middle_config_panel locales str_lower u1 w0 = (Ok (lower p, seeded1, saved), w1)
    ∧ middle_config_panel locales str_lower u2 w1 = (Ok (lower q, seeded2, form2), w2)
    ∧ middle_config_panel locales str_lower (just_pick p) w2 = (Ok (lower p, form3, form3), w3)
    ∧ llm_api_key saved = default (llm_api_key seeded1) (typed_api_key u1)
    ∧ llm_base_url saved = default (llm_base_url seeded1) (typed_base_url u1)
    ∧ llm_model_name saved = default (llm_model_name seeded1) (typed_model_name u1)
    ∧ config_app w3 !! (lower p +:+ "_api_key") = Some (llm_api_key saved)
    ∧ config_app w3 !! (lower p +:+ "_base_url") = Some (llm_base_url saved)
    ∧ config_app w3 !! (lower p +:+ "_model_name") = Some (llm_model_name saved)
    ∧ llm_api_key form3 = llm_api_key saved
    ∧ llm_base_url form3
      = (if String.eqb (lower p) "ollama" && negb (truthy (llm_base_url saved))
         then "http://localhost:11434/v1" else llm_base_url saved)
    ∧ llm_model_name form3
      = (if String.eqb (lower p) "ollama" && negb (truthy (llm_model_name saved))
         then "qwen:7b" else llm_model_name saved)
    ∧ (lower p ≠ "ollama" → form3 = saved).
Proof.
  intros Hlang Hpick1 Hsave1 Hpick2 Hsave2.
  destruct (middle_config_panel_eval u1 w0 code Hlang)
    as (seeded1 & ? & w1 & _ & Hrun1 & Hss1 & Happ1 & _).
  rewrite Hpick1 in Hrun1, Happ1. rewrite Hsave1 in Happ1.
  cbn [default from_option id] in Hrun1, Happ1.
  assert (session_state w1 !! "ui_language" = Some code) as Hlang1 by by rewrite Hss1.
  destruct (middle_config_panel_eval u2 w1 code Hlang1)
    as (seeded2 & ? & w2 & _ & Hrun2 & Hss2 & Happ2 & _).
  rewrite Hpick2 in Hrun2, Happ2. rewrite Hsave2 in Happ2.
  cbn [default from_option id] in Hrun2, Happ2.
  assert (session_state w2 !! "ui_language" = Some code) as Hlang2 by by rewrite Hss2.
  destruct (just_pick_eval p w2 code Hlang2)
    as (form3 & w3 & Hrun3 & _ & Happ3 & _ & Hapi & Hsecret & Haccount & Hurl & Hmodel).
  cbv zeta in Hrun3, Happ3, Hapi, Hsecret, Haccount, Hurl, Hmodel.
  set (saved := Fields (default (llm_api_key seeded1) (typed_api_key u1))
                       (default (llm_secret_key seeded1) (typed_secret_key u1))
                       (default (llm_base_url seeded1) (typed_base_url u1))
                       (default (llm_model_name seeded1) (typed_model_name u1))
                       (default (llm_account_id seeded1) (typed_account_id u1))) in *.
  assert (∀ suffix, endswith "llm_provider" suffix = false →
            config_app w3 !! (lower p +:+ suffix)
            = saved_app (lower p) saved
                (<["llm_provider" := lower p]> (config_app w0)) !! (lower p +:+ suffix)
            ∧ config_app w2 !! (lower p +:+ suffix)
              = saved_app (lower p) saved
                  (<["llm_provider" := lower p]> (config_app w0)) !! (lower p +:+ suffix))
    as Hkept.
  { intros suffix Hsuffix. rewrite Happ3, Happ2, Happ1.
    by rewrite !lookup_credential_after_select by done. }
  pose proof (saved_app_lookup (lower p) saved
                (<["llm_provider" := lower p]> (config_app w0)))
    as (Hk1 & Hk2 & Hk3 & Hk4 & Hk5).
  destruct (Hkept "_api_key" eq_refl) as [Hw3_api Hw2_api].
  destruct (Hkept "_secret_key" eq_refl) as [_ Hw2_secret].
  destruct (Hkept "_base_url" eq_refl) as [Hw3_url Hw2_url].
  destruct (Hkept "_model_name" eq_refl) as [Hw3_model Hw2_model].
  destruct (Hkept "_account_id" eq_refl) as [_ Hw2_account].
  rewrite Hw2_api, Hk1 in Hapi. rewrite Hw2_secret, Hk2 in Hsecret.
  rewrite Hw2_url, Hk3 in Hurl. rewrite Hw2_model, Hk4 in Hmodel.
  rewrite Hw2_account, Hk5 in Haccount.
  cbn [default from_option id] in Hapi, Hsecret, Haccount, Hurl, Hmodel.
  eexists seeded1, saved, w1, seeded2, _, w2, form3, w3.
  split; [exact Hrun1|]. split; [exact Hrun2|]. split; [exact Hrun3|].
  do 3 (split; [done|]).
  split; [by rewrite Hw3_api|]. split; [by rewrite Hw3_url|].
  split; [by rewrite Hw3_model|].
  split; [done|]. split; [done|]. split; [done|].
  intros Hnot. apply String.eqb_neq in Hnot. rewrite Hnot in Hurl, Hmodel.
  destruct form3; simpl in *. unfold saved. by f_equal.
Qed.

(** *** Pressing Save *)

(** C3. In a run of the column with Save clicked, the handler runs for the
    provider that run made active.  It assigns the five credential keys of
    that provider's namespace, each with the value of its form field, and
    writes the configuration to disk once, with those values in it; every
    other key of the configuration, [llm_provider] among them, keeps the
    entry it had when the handler started, and the session state is not
    touched. *)
Theorem save_writes_five_keys (u : interaction) (w : world) (code : string) :
  session_state w !! "ui_language" = Some code →
  save_clicked u = true →
  ∃ p seeded form before after message,
    middle_config_panel locales str_lower u w = (Ok (p, seeded, form), after)
    ∧ config_app before = <["llm_provider" := p]> (config_app w)
    ∧ save_handler locales p form before = (Ok tt, after)
    ∧ session_state after = session_state w
    ∧ effects after = effects before ++ [ConfigSave (config_app after); StSuccess message]
    ∧ config_app after !! "llm_provider" = Some p
    ∧ config_app after !! (p +:+ "_api_key") = Some (llm_api_key form)
    ∧ config_app after !! (p +:+ "_secret_key") = Some (llm_secret_key form)
    ∧ config_app after !! (p +:+ "_base_url") = Some (llm_base_url form)
    ∧ config_app after !! (p +:+ "_model_name") = Some (llm_model_name form)
    ∧ config_app after !! (p +:+ "_account_id") = Some (llm_account_id form)
    ∧ (∀ k, k ∉ credential_keys p →
         config_app after !! k = config_app before !! k).
Proof.
  intros Hlang Hclicked.
  destruct (middle_config_panel_eval u w code Hlang)
    as (seeded & before & after & Hprefill & Hrun & Hss & _ & Hhandler & _).
  specialize (Hhandler Hclicked).
  set (p := lower (default _ (picked_provider u))) in *.
  destruct (prefill_eval p (set_app (insert "llm_provider" p) w))
    as (seeded' & before' & Hprefill' & Hss1 & Happ1 & _).
  rewrite Hprefill in Hprefill'. injection Hprefill' as <- <-.
  simpl in Hss1, Happ1.
  assert (session_state before !! "ui_language" = Some code) as Hlang1
    by by rewrite Hss1.
  set (form := Fields _ _ _ _ _) in *.
  destruct (save_handler_frame p form before code Hlang1)
    as (after' & message & Hsave & Hss2 & Hfx & Hk1 & Hk2 & Hk3 & Hk4 & Hk5 & Hframe).
  rewrite Hhandler in Hsave. injection Hsave as <-.
  exists p, seeded, form, before, after, message.
  split; [exact Hrun|]. split; [exact Happ1|]. split; [exact Hhandler|].
  split; [done|]. split; [done|].
  split; [|by repeat (split; [done|])].
  rewrite Hframe, Happ1; [apply lookup_insert_eq|].
  unfold credential_keys. rewrite !elem_of_cons, elem_of_nil.
  intros [H|[H|[H|[H|[H|[]]]]]];
    by apply llm_provider_not_credential_key in H.
Qed.

End settings.

(** ** The column on concrete runs *)

Import I18n Settings.

Lemma unmatched_provider_selects_OpenAI_witness :
  let w := World {[ "ui_language" := "en-US" ]} {[ "llm_provider" := "Claude" ]} [] in
  saved_llm_provider_index (lower "Claude") = 0
  ∧ select_provider ∅ lower untouched w
    = (Ok "openai", set_app (insert "llm_provider" "openai") w).
Proof.
  intros w.
  assert (session_state w !! "ui_language" = Some "en-US") as Hlang by reflexivity.
  assert (∀ provider, provider ∈ llm_providers →
            lower provider ≠ lower (default "OpenAI" (config_app w !! "llm_provider")))
    as Hnone.
  { intros provider Hin. unfold llm_providers in Hin.
    rewrite !elem_of_cons, elem_of_nil in Hin.
    intros Heq. vm_compute in Heq.
    repeat (destruct Hin as [->|Hin]; [discriminate Heq|]). done. }
  destruct (unmatched_provider_selects_OpenAI ∅ lower untouched w "en-US" Hlang Hnone)
    as (Hindex & _ & Hselect).
  split; [exact Hindex|exact (Hselect eq_refl)].
Defined.

Lemma save_writes_five_keys_witness :
  ∃ p seeded form after,
    middle_config_panel ∅ lower save_ollama_cleared english_session
    = (Ok (p, seeded, form), after)
    ∧ config_app after !! "llm_provider" = Some p
    ∧ config_app after !! (p +:+ "_api_key") = Some (llm_api_key form)
    ∧ config_app after !! (p +:+ "_base_url") = Some (llm_base_url form).
Proof.
  destruct (save_writes_five_keys ∅ lower save_ollama_cleared english_session "en-US"
              eq_refl eq_refl)
    as (p & seeded & form & before & after & message
        & Hrun & _ & _ & _ & _ & Hprovider & Hapi & _ & Hurl & _).
  exists p, seeded, form, after.
  split; [exact Hrun|]. split; [exact Hprovider|]. split; [exact Hapi|exact Hurl].
Defined.

(** With nothing saved, picking OpenAI, Azure or Moonshot seeds an empty
    base URL and an empty model name: no default is filled in. *)
Lemma special_providers_seed_empty :
  let empty := Fields "" "" "" "" "" in
  (middle_config_panel ∅ lower (just_pick "OpenAI") english_session).1
  = Ok ("openai", empty, empty)
  ∧ (middle_config_panel ∅ lower (just_pick "Azure") english_session).1
    = Ok ("azure", empty, empty)
  ∧ (middle_config_panel ∅ lower (just_pick "Moonshot") english_session).1
    = Ok ("moonshot", empty, empty).
Proof. vm_compute. by repeat split. Qed.

Lemma special_providers_prefill_witness :
  ∃ seeded w',
    middle_config_panel ∅ lower (just_pick "Ollama") english_session
    = (Ok ("ollama", seeded, seeded), w')
    ∧ effects w' = [StMarkdown ollama_tips]
    ∧ llm_model_name seeded = "qwen:7b"
    ∧ llm_base_url seeded = "http://localhost:11434/v1".
Proof.
  destruct (special_providers_prefill ∅ lower english_session "en-US" eq_refl)
    as ((seeded & w' & Hrun & Hfx & Hmodel & Hurl) & _).
  exists seeded, w'. split; [exact Hrun|]. split; [exact Hfx|].
  split; [exact Hmodel|exact Hurl].
Defined.

(** Ollama saved with the base URL and the model name cleared: after a
    visit to OpenAI the configuration still holds the two empty strings, but
    the form shows the Ollama defaults, not what was saved. *)
Lemma ollama_cleared_fields_come_back_filled :
  let run1 := middle_config_panel ∅ lower save_ollama_cleared english_session in
  let run2 := middle_config_panel ∅ lower (just_pick "OpenAI") run1.2 in
  let run3 := middle_config_panel ∅ lower (just_pick "Ollama") run2.2 in
  let shown := Fields "123" "" "http://localhost:11434/v1" "qwen:7b" "" in
  run1.1 = Ok ("ollama", Fields "" "" "http://localhost:11434/v1" "qwen:7b" "",
               Fields "123" "" "" "" "")
  ∧ is_ok run2.1 = true
  ∧ config_app run3.2 !! "ollama_base_url" = Some ""
  ∧ config_app run3.2 !! "ollama_model_name" = Some ""
  ∧ run3.1 = Ok ("ollama", shown, shown).
Proof. vm_compute. by repeat split. Qed.

Lemma saved_credentials_survive_switch_witness :
  ∃ saved form3 w2 w3,
    middle_config_panel ∅ lower (just_pick "OpenAI") w2 = (Ok ("openai", form3, form3), w3)
    ∧ form3 = saved
    ∧ llm_api_key saved = "sk-1".
Proof.
  destruct (saved_credentials_survive_switch ∅ lower "OpenAI" "Azure"
              save_openai_filled (just_pick "Azure") english_session "en-US"
              eq_refl eq_refl eq_refl eq_refl eq_refl)
    as (seeded1 & saved & w1 & seeded2 & form2 & w2 & form3 & w3
        & _ & _ & Hrun3 & Hapi & _ & _ & _ & _ & _ & _ & _ & _ & Hsame).
  exists saved, form3, w2, w3. split; [exact Hrun3|].
  split; [apply Hsame; discriminate|exact Hapi].
Defined.

(** * Further properties *)

(** ** Session state and translations, across reruns *)

Section session_reruns.
Import Session I18n.

Lemma init_key_present (k v : string) (ss : gmap string string) :
  is_Some (ss !! k) → init_key k v ss = ss.
Proof. intros [x Hx]. unfold init_key. by rewrite Hx. Qed.

Lemma init_key_keeps_is_Some (k v : string) (ss : gmap string string) (k' : string) :
  is_Some (ss !! k') → is_Some (init_key k v ss !! k').
Proof. intros [x Hx]. exists x. by apply init_key_keeps. Qed.

Lemma init_session_state_present (config_ui : gmap string string)
    (system_locale : string) (ss : gmap string string) :
  let ss' := init_session_state config_ui system_locale ss in
  is_Some (ss' !! "video_subject") ∧ is_Some (ss' !! "video_script")
  ∧ is_Some (ss' !! "video_terms") ∧ is_Some (ss' !! "ui_language").
Proof.
  cbv zeta. unfold init_session_state. split; [|split; [|split]].
  - do 3 apply init_key_keeps_is_Some. apply init_key_is_Some.
  - do 2 apply init_key_keeps_is_Some. apply init_key_is_Some.
  - apply init_key_keeps_is_Some. apply init_key_is_Some.
  - apply init_key_is_Some.
Qed.

(** X1. Whatever the session holds, the initialization block leaves it
    with the four keys present; running the block again, even with another
    configuration or system locale, changes nothing. *)
Theorem init_session_state_rerun (config_ui config_ui' : gmap string string)
    (system_locale system_locale' : string) (ss : gmap string string) :
  let ss' := init_session_state config_ui system_locale ss in
  (is_Some (ss' !! "video_subject") ∧ is_Some (ss' !! "video_script")
   ∧ is_Some (ss' !! "video_terms") ∧ is_Some (ss' !! "ui_language"))
  ∧ init_session_state config_ui' system_locale' ss' = ss'.
Proof.
  cbv zeta.
  pose proof (init_session_state_present config_ui system_locale ss)
    as (Hsubject & Hscript & Hterms & Hlang).
  split; [done|].
  unfold init_session_state at 1.
  rewrite (init_key_present "video_subject") by done.
  rewrite (init_key_present "video_script") by done.
  rewrite (init_key_present "video_terms") by done.
  by rewrite (init_key_present "ui_language").
Qed.

(** X2. In a session that has no [ui_language] the block sets it to the
    [language] entry of [config.ui] when there is one and to the system
    locale otherwise; a language the session already has wins over both. *)
Theorem init_session_state_language (config_ui : gmap string string)
    (system_locale : string) (ss : gmap string string) :
  init_session_state config_ui system_locale ss !! "ui_language"
  = Some (default (default system_locale (config_ui !! "language"))
                  (ss !! "ui_language")).
Proof.
  unfold init_session_state.
  set (ss3 := init_key "video_terms" "" _).
  assert (ss3 !! "ui_language" = ss !! "ui_language") as Hsame.
  { unfold ss3, init_key.
    repeat match goal with
           | |- context [match ?m !! ?k with _ => _ end] => destruct (m !! k)
           end;
      by rewrite ?lookup_insert_ne by done. }
  unfold init_key at 1. rewrite Hsame.
  destruct (ss !! "ui_language") as [lang|] eqn:Hlang; simpl.
  - by rewrite Hsame.
  - by rewrite lookup_insert_eq.
Qed.

(** X3. [tr] never changes the world.  It raises a [KeyError] when the
    session has no [ui_language], and returns a text in every other case;
    after the initialization block it always returns. *)
Theorem tr_raises_only_without_language (locales : gmap string locale)
    (key : string) (w : world) :
  (tr locales key w).2 = w
  ∧ (session_state w !! "ui_language" = None →
     ∃ e, (tr locales key w).1 = Raise e ∧ exn_cls e = KeyError)
  ∧ (is_Some (session_state w !! "ui_language") →
     is_ok (tr locales key w).1 = true)
  ∧ (∀ config_ui system_locale,
       let w' := World (init_session_state config_ui system_locale (session_state w))
                       (config_app w) (effects w) in
       is_ok (tr locales key w').1 = true).
Proof.
  assert (∀ v, is_Some (session_state v !! "ui_language") →
               is_ok (tr locales key v).1 = true) as Hok.
  { intros v [code Hcode]. by rewrite (tr_eval _ _ code). }
  split; [|split; [|split]].
  - unfold tr, getitem. unfold_m. by destruct (session_state w !! "ui_language").
  - intros Hnone. unfold tr, getitem. unfold_m. rewrite Hnone. by eexists.
  - apply Hok.
  - intros config_ui system_locale w'. apply Hok. simpl.
    apply (init_session_state_present config_ui system_locale (session_state w)).
Qed.

End session_reruns.

Lemma tr_raises_only_without_language_witness :
  ∃ e, (I18n.tr ∅ "Save" (World ∅ ∅ [])).1 = Raise e ∧ exn_cls e = KeyError.
Proof.
  apply (proj1 (proj2 (tr_raises_only_without_language ∅ "Save" (World ∅ ∅ [])))).
  apply lookup_empty.
Defined.

(** ** Asset scanners: songs, listing order, missing directories *)

Section asset_lists.
Import Assets.

Lemma string_length_append (s1 s2 : string) :
  String.length (s1 +:+ s2) = String.length s1 + String.length s2.
Proof.
  induction s1 as [|c s1 IH]; [done|].
  change (String c s1 +:+ s2) with (String c (s1 +:+ s2)). simpl. by rewrite IH.
Qed.

(** Two ways of cutting a string into a stem and a suffix of one length
    give the same suffix. *)
Lemma append_same_length_suffix (s1 s2 a b : string) :
  String.length a = String.length b → s1 +:+ a = s2 +:+ b → a = b.
Proof.
  intros Hlen. revert s2. induction s1 as [|c s1 IH]; intros [|d s2] Heq.
  - done.
  - exfalso. change ("" +:+ a) with a in Heq. subst a.
    rewrite string_length_append in Hlen. simpl in Hlen. lia.
  - exfalso. change ("" +:+ b) with b in Heq. subst b.
    rewrite string_length_append in Hlen. simpl in Hlen. lia.
  - change (String c (s1 +:+ a) = String d (s2 +:+ b)) in Heq.
    injection Heq as _ Heq. by apply (IH s2).
Qed.

Lemma font_is_no_song (file : string) : is_font file = true → is_song file = false.
Proof.
  unfold is_font, is_song. rewrite orb_true_iff, !endswith_iff.
  intros Hfont. apply not_true_is_false. rewrite endswith_iff.
  intros [stem' Hsong].
  destruct Hfont as [[stem ->]|[stem ->]];
    by apply append_same_length_suffix in Hsong.
Qed.

(** X4. [get_all_songs] returns the names below the song directory that
    end in [.mp3], in walk order (a directory's own files, then those of
    each sub-directory in turn) and unsorted, each as often as it occurs.
    For a path that is no directory both scanners return the empty list. *)
Theorem get_all_songs_walk_order_names (song_dir : string) (top : option dir) :
  get_all_songs song_dir top = List.filter is_song (names_below top)
  ∧ (∀ files subdirs,
       get_all_songs song_dir (Some (Dir files subdirs))
       = List.filter is_song files
         ++ flat_map (λ sub, get_all_songs (song_dir +:+ "/" +:+ fst sub) (Some (snd sub)))
                     subdirs)
  ∧ get_all_songs song_dir None = []
  ∧ get_all_fonts song_dir None = [].
Proof.
  assert (∀ d t, get_all_songs d t = List.filter is_song (names_below t)) as Hsongs.
  { intros d t. unfold get_all_songs. by rewrite scan_filter, os_walk_file_names. }
  split; [apply Hsongs|]. split; [|done].
  intros files subdirs. rewrite Hsongs. simpl. rewrite List.filter_app. f_equal.
  induction subdirs as [|[name sub] subdirs IH]; simpl; [done|].
  by rewrite List.filter_app, IH, Hsongs.
Qed.

(** X5. The list of fonts does not depend on the order in which the
    operating system lists files and directories, nor on where the font
    directory is: two trees that hold the same names, each as often, give
    the same list. *)
Theorem get_all_fonts_listing_order (font_dir font_dir' : string)
    (top top' : option dir) :
  names_below top ≡ₚ names_below top' →
  get_all_fonts font_dir top = get_all_fonts font_dir' top'.
Proof.
  intros Hsame.
  assert (∀ d t, get_all_fonts d t ≡ₚ List.filter is_font (names_below t)) as Hperm.
  { intros d t. unfold get_all_fonts. rewrite merge_sort_Permutation.
    by rewrite scan_filter, os_walk_file_names. }
  apply (Sorted_unique str_le).
  - apply (Sorted_merge_sort str_le).
  - apply (Sorted_merge_sort str_le).
  - rewrite !Hperm. clear Hperm.
    induction Hsame as [|x l l' _ IH|x y l|l l' l'' _ IH1 _ IH2]; simpl.
    + done.
    + destruct (is_font x); [by apply perm_skip|done].
    + destruct (is_font x), (is_font y); try done. apply perm_swap.
    + by etrans.
Qed.

(** X6. No file name is listed both as a font and as a song. *)
Theorem fonts_and_songs_disjoint (font_dir song_dir : string)
    (fonts_top songs_top : option dir) (file : string) :
  file ∈ get_all_fonts font_dir fonts_top →
  file ∉ get_all_songs song_dir songs_top.
Proof.
  intros Hfont Hsong.
  unfold get_all_fonts in Hfont. rewrite merge_sort_Permutation in Hfont.
  unfold get_all_songs in Hsong. rewrite scan_filter in Hfont, Hsong.
  apply list_elem_of_In, List.filter_In in Hfont as [_ Hfont].
  apply list_elem_of_In, List.filter_In in Hsong as [_ Hsong].
  apply font_is_no_song in Hfont. congruence.
Qed.

End asset_lists.

Lemma get_all_fonts_listing_order_witness :
  Assets.get_all_fonts "fonts" (Some (Assets.Dir ["b.ttf"; "a.ttc"] []))
  = Assets.get_all_fonts "/opt/fonts"
      (Some (Assets.Dir [] [("x", Assets.Dir ["a.ttc"] []); ("y", Assets.Dir ["b.ttf"] [])])).
Proof.
  apply get_all_fonts_listing_order.
  exact (Permutation_swap "a.ttc" "b.ttf" []).
Defined.

Lemma fonts_and_songs_disjoint_witness :
  "a.ttf" ∉ Assets.get_all_songs "songs" (Some (Assets.Dir ["a.ttf"; "b.mp3"] [])).
Proof.
  apply (fonts_and_songs_disjoint "fonts" "songs"
           (Some (Assets.Dir ["a.ttf"; "b.mp3"] []))).
  apply list_elem_of_here.
Defined.

(** ** Opening a task folder: what it runs at most *)

Section task_folder_effects.
Import TaskFolder.

(** X7. One call of [open_task_folder] adds at most one effect: nothing,
    or one command, or one logged exception.  A command runs only when the
    folder exists and the system is ["Windows"] (then it is [start] on the
    task path) or ["Darwin"] (then it is [open]). *)
Theorem open_task_folder_one_effect (h : host) (root_dir task_id : string) (w : world) :
  ∃ new,
    effects (open_task_folder h root_dir task_id w).2 = effects w ++ new
    ∧ (new = []
       ∨ (∃ path,
            path_join h [root_dir; "storage"; "tasks"; task_id] = Ok path
            ∧ path_exists h path = Ok true
            ∧ ((platform_system h = Ok "Windows"
                ∧ new = [OsSystem ("start " +:+ path)])
               ∨ (platform_system h = Ok "Darwin"
                  ∧ new = [OsSystem ("open " +:+ path)])))
       ∨ (∃ e, new = [LoggerError "" e])).
Proof.
  unfold open_task_folder, os_system. unfold_m.
  destruct (platform_system h) as [sys|e0] eqn:Hsys; simpl;
    [|exists [LoggerError "" e0]; split; [done|]; right; right; by exists e0].
  destruct (path_join h _) as [path|e0] eqn:Hjoin; simpl;
    [|exists [LoggerError "" e0]; split; [done|]; right; right; by exists e0].
  destruct (path_exists h path) as [[]|e0] eqn:Hexists; simpl;
    [|exists []; split; [by rewrite app_nil_r|by left]
     |exists [LoggerError "" e0]; split; [done|]; right; right; by exists e0].
  destruct (String.eqb_spec sys "Windows") as [->|Hwin]; simpl.
  - destruct (os_system_status h ("start " +:+ path)) as [status|e0]; simpl.
    + exists [OsSystem ("start " +:+ path)]. split; [done|].
      right; left. exists path. by eauto.
    + exists [LoggerError "" e0]. split; [done|]. right; right. by exists e0.
  - destruct (String.eqb_spec sys "Darwin") as [->|Hmac]; simpl.
    + destruct (os_system_status h ("open " +:+ path)) as [status|e0]; simpl.
      * exists [OsSystem ("open " +:+ path)]. split; [done|].
        right; left. exists path. by eauto.
      * exists [LoggerError "" e0]. split; [done|]. right; right. by exists e0.
    + exists []. split; [by rewrite app_nil_r|by left].
Qed.

End task_folder_effects.

(** ** Credential validation: what escapes and what comes back *)

Section validation_results.
Import Validation.

(** X8. A payload with a key that is no string makes [validate_config]
    raise [TypeError] to its caller: the [except] clause names
    [ValidationError] only.  Nothing is logged. *)
Theorem validate_config_non_string_key (config_data : gmap pykey pyval)
    (k : pykey) (v : pyval) (w : world) :
  config_data !! k = Some v → is_str_key k = false →
  validate_config config_data w
  = (Raise (Exn TypeError "keywords must be strings"), w).
Proof.
  intros Hk Hkey. unfold validate_config, ConfigModel_init. unfold_m.
  rewrite bool_decide_false; [done|].
  intros Hall. specialize (Hall k v Hk). simpl in Hall. congruence.
Qed.

(** X9. A model that [validate_config] returns mirrors the payload:
    [api_key] has an entry, which is not [None]; each field holds the
    payload's string where the entry is a string, and the text the entry is
    converted to where it is another value; an optional field whose entry is
    [None] or missing is [None].  Every key of the payload is a string, and
    nothing was logged. *)
Theorem validate_config_model_fields (config_data : gmap pykey pyval)
    (w w' : world) (model : ConfigModel) :
  validate_config config_data w = (Ok (Some model), w') →
  w' = w
  ∧ map_Forall (λ k _, is_str_key k = true) config_data
  ∧ config_data !! KStr "api_key" ≠ None
  ∧ config_data !! KStr "api_key" ≠ Some PNone
  ∧ Some (api_key model) = field_text (config_data !! KStr "api_key")
  ∧ secret_key model = field_text (config_data !! KStr "secret_key")
  ∧ base_url model = field_text (config_data !! KStr "base_url")
  ∧ model_name model = field_text (config_data !! KStr "model_name")
  ∧ account_id model = field_text (config_data !! KStr "account_id").
Proof.
  unfold validate_config, ConfigModel_init. unfold_m.
  case_bool_decide as Hkeys; [|done].
  unfold validate_fields, required_str, optional_str.
  destruct (config_data !! KStr "api_key") as [[| |[]]|]; try done;
    destruct (config_data !! KStr "secret_key") as [[| |[]]|]; try done;
    destruct (config_data !! KStr "base_url") as [[| |[]]|]; try done;
    destruct (config_data !! KStr "model_name") as [[| |[]]|]; try done;
    destruct (config_data !! KStr "account_id") as [[| |[]]|]; simpl;
    intros [= <- <-]; by repeat split.
Qed.

End validation_results.

Lemma validate_config_non_string_key_witness :
  Validation.validate_config {[ Validation.KInt 1 := Validation.PStr "x" ]} (World ∅ ∅ [])
  = (Raise (Exn TypeError "keywords must be strings"), World ∅ ∅ []).
Proof.
  apply (validate_config_non_string_key _ (Validation.KInt 1) (Validation.PStr "x")).
  - apply lookup_singleton_eq.
  - reflexivity.
Defined.

Lemma validate_config_model_fields_witness :
  map_Forall (λ k _, Validation.is_str_key k = true) Validation.example_config_data
  ∧ Validation.example_config_data !! Validation.KStr "api_key" ≠ None.
Proof.
  assert (Validation.validate_config Validation.example_config_data (World ∅ ∅ [])
          = (Ok (Some (Validation.Build_ConfigModel
                         "example_key" (Some "example_secret")
                         (Some "http://example.com") (Some "example_model")
                         (Some "example_account"))),
             World ∅ ∅ [])) as Hrun by (vm_compute; reflexivity).
  destruct (validate_config_model_fields _ _ _ _ Hrun) as (_ & Hkeys & Hpresent & _).
  split; [exact Hkeys|exact Hpresent].
Defined.

(** ** The provider column: selection, frames and reruns *)

Section provider_column.
Import I18n Settings.

Local Set Default Proof Using "Type".

Variable locales : gmap string locale.
Variable str_lower : string → string.

Lemma provider_loop_bound (saved : string) (rest : list (nat * string)) (index n : nat) :
  index < n → (∀ i provider, (i, provider) ∈ rest → i < n) →
  provider_loop saved rest index < n.
Proof.
  intros Hindex. induction rest as [|[i provider] rest IH]; intros Hrest; simpl; [done|].
  destruct (String.eqb (lower provider) saved).
  - apply (Hrest i provider). apply elem_of_cons. by left.
  - apply IH. intros j other Hin. apply (Hrest j other). apply elem_of_cons. by right.
Qed.

(** X10. Whatever the configuration holds under [llm_provider], the index
    handed to the select box is a position of the provider list, so the box
    left alone answers one of the eleven providers. *)
Theorem saved_llm_provider_index_in_range (saved_llm_provider : string) :
  saved_llm_provider_index saved_llm_provider < length llm_providers
  ∧ nth (saved_llm_provider_index saved_llm_provider) llm_providers "" ∈ llm_providers.
Proof.
  assert (saved_llm_provider_index saved_llm_provider < length llm_providers) as Hlt.
  { apply provider_loop_bound; [simpl; lia|].
    intros i provider Hin. unfold enumerate in Hin.
    apply elem_of_zip_l, elem_of_seq in Hin. lia. }
  split; [done|]. apply list_elem_of_In, nth_In, Hlt.
Qed.

Lemma provider_found (p : string) :
  p ∈ llm_providers →
  nth (saved_llm_provider_index (lower p)) llm_providers "" = p.
Proof.
  unfold llm_providers at 1. rewrite !elem_of_cons, elem_of_nil.
  intros Hin. repeat (destruct Hin as [->|Hin]; [by vm_compute|]). done.
Qed.

(** X11. The saved provider is matched without regard to case: when the
    [llm_provider] entry, lowered by [str.lower], is the lowered name of a
    provider of the list, the select box left alone answers that provider,
    and the run stores its lowered name again. *)
Theorem saved_provider_is_selected (u : interaction) (w : world)
    (code saved p : string) :
  session_state w !! "ui_language" = Some code →
  config_app w !! "llm_provider" = Some saved →
  p ∈ llm_providers → str_lower saved = lower p →
  picked_provider u = None →
  nth (saved_llm_provider_index (str_lower saved)) llm_providers "" = p
  ∧ select_provider locales str_lower u w
    = (Ok (lower p), set_app (insert "llm_provider" (lower p)) w).
Proof.
  intros Hlang Hsaved Hin Hlower Hpicked.
  assert (nth (saved_llm_provider_index (str_lower saved)) llm_providers "" = p)
    as Hnth.
  { rewrite Hlower. by apply provider_found. }
  split; [done|].
  rewrite (select_provider_eval locales str_lower u w code Hlang).
  by rewrite Hsaved, Hpicked; cbn [default from_option id]; rewrite Hnth.
Qed.

(** X12. A run of the column without a click on Save writes the
    [llm_provider] entry and nothing else: every other key of the
    configuration and the session state stay as they were, whatever was
    typed; nothing is written to disk, and at most the help text is shown. *)
Theorem run_without_save_frame (u : interaction) (w : world) (code : string) :
  session_state w !! "ui_language" = Some code →
  save_clicked u = false →
  ∃ p seeded form w',
    middle_config_panel locales str_lower u w = (Ok (p, seeded, form), w')
    ∧ session_state w' = session_state w
    ∧ config_app w' = <["llm_provider" := p]> (config_app w)
    ∧ (∀ k, k ≠ "llm_provider" → config_app w' !! k = config_app w !! k)
    ∧ ∃ shown, effects w' = effects w ++ shown
               ∧ (shown = [] ∨ ∃ tips, shown = [StMarkdown tips]).
Proof.
  intros Hlang Hsave.
  destruct (middle_config_panel_eval locales str_lower u w code Hlang)
    as (seeded & w1 & w' & Hprefill & Hrun & Hss & Happ & _ & shown & Hfx & Hshown).
  rewrite Hsave in Happ. rewrite (Hshown Hsave), app_nil_r in Hfx.
  set (p := lower (default _ (picked_provider u))) in *.
  destruct (prefill_eval p (set_app (insert "llm_provider" p) w))
    as (seeded' & w1' & Hprefill' & _ & _ & Hfx1 & _).
  rewrite Hprefill in Hprefill'. injection Hprefill' as <- <-.
  simpl in Hfx1.
  eexists p, seeded, _, w'. split; [exact Hrun|]. split; [done|]. split; [done|].
  split; [intros k Hk; by rewrite Happ, lookup_insert_ne|].
  eexists. split; [by rewrite Hfx, Hfx1|].
  repeat (destruct (String.eqb p _); [right; by eexists|]). by left.
Qed.

(** The credential keys of two different providers of the list never meet. *)
Lemma namespaces_apart :
  forallb (λ p,
    forallb (λ q,
      String.eqb p q
      || forallb (λ k, negb (existsb (String.eqb k) (credential_keys (lower p))))
                 (credential_keys (lower q)))
      llm_providers)
    llm_providers = true.
Proof. by vm_compute. Qed.

Lemma other_namespace_key (p q k : string) :
  p ∈ llm_providers → q ∈ llm_providers → p ≠ q →
  k ∈ credential_keys (lower q) → k ∉ credential_keys (lower p).
Proof.
  intros Hp Hq Hne Hk Hk'.
  pose proof namespaces_apart as Hall.
  rewrite forallb_forall in Hall. apply list_elem_of_In in Hp.
  specialize (Hall p Hp). rewrite forallb_forall in Hall.
  apply list_elem_of_In in Hq. specialize (Hall q Hq).
  apply orb_true_iff in Hall as [Heq|Hall].
  - by apply String.eqb_eq in Heq.
  - rewrite forallb_forall in Hall. apply list_elem_of_In in Hk.
    specialize (Hall k Hk). apply negb_true_iff in Hall.
    assert (existsb (String.eqb k) (credential_keys (lower p)) = true) as Hex.
    { apply existsb_exists. exists k. split; [by apply list_elem_of_In|].
      apply String.eqb_refl. }
    congruence.
Qed.

(** X13. Saving under one provider of the list leaves the five credential
    entries of every other provider of the list as they were. *)
Theorem save_keeps_other_providers (u : interaction) (w : world)
    (code p q k : string) :
  session_state w !! "ui_language" = Some code →
  picked_provider u = Some p → save_clicked u = true →
  p ∈ llm_providers → q ∈ llm_providers → p ≠ q →
  k ∈ credential_keys (lower q) →
  config_app (middle_config_panel locales str_lower u w).2 !! k = config_app w !! k.
Proof.
  intros Hlang Hpicked Hsave Hp Hq Hne Hk.
  destruct (middle_config_panel_eval locales str_lower u w code Hlang)
    as (seeded & w1 & w' & _ & Hrun & _ & Happ & _).
  rewrite Hpicked, Hsave in Happ. cbn [default from_option id] in Happ.
  rewrite Hrun. simpl. rewrite Happ.
  rewrite saved_app_frame by by apply (other_namespace_key p q).
  apply lookup_insert_ne. intros Heq. subst k.
  unfold credential_keys in Hk. rewrite !elem_of_cons, elem_of_nil in Hk.
  destruct Hk as [H|[H|[H|[H|[H|[]]]]]];
    by apply llm_provider_not_credential_key in H.
Qed.

(** X14. Picking the provider that is already active is a no-op on the
    data: a second run with the same pick returns the same form and leaves
    the configuration and the session state as the first run left them. *)
Theorem reselecting_provider_is_noop (name : string) (w : world) (code : string) :
  session_state w !! "ui_language" = Some code →
  ∃ seeded w1 w2,
    middle_config_panel locales str_lower (just_pick name) w
    = (Ok (lower name, seeded, seeded), w1)
    ∧ middle_config_panel locales str_lower (just_pick name) w1
      = (Ok (lower name, seeded, seeded), w2)
    ∧ config_app w2 = config_app w1
    ∧ session_state w2 = session_state w1.
Proof.
  intros Hlang.
  destruct (just_pick_eval locales str_lower name w code Hlang)
    as (seeded & w1 & Hrun1 & Hss1 & Happ1 & _ & Ha & Hs & Hc & Hu & Hm).
  assert (session_state w1 !! "ui_language" = Some code) as Hlang1 by by rewrite Hss1.
  destruct (just_pick_eval locales str_lower name w1 code Hlang1)
    as (seeded' & w2 & Hrun2 & Hss2 & Happ2 & _ & Ha' & Hs' & Hc' & Hu' & Hm').
  cbv zeta in *.
  rewrite Happ1 in Ha', Hs', Hc', Hu', Hm'.
  rewrite lookup_credential_after_select in Ha', Hs', Hc', Hu', Hm' by done.
  rewrite <- Ha in Ha'. rewrite <- Hs in Hs'. rewrite <- Hc in Hc'.
  rewrite <- Hu in Hu'. rewrite <- Hm in Hm'.
  assert (seeded' = seeded) as -> by (destruct seeded, seeded'; simpl in *; congruence).
  exists seeded, w1, w2. split; [done|]. split; [done|]. split; [|done].
  by rewrite Happ2, Happ1, insert_insert_eq.
Qed.

(** X15. Saving the Ollama form while its base URL and model name inputs
    hold no typed text stores the values that seeded them: the saved value
    where there was one, and otherwise the default, which from then on is in
    the configuration. *)
Theorem ollama_defaults_are_saved (u : interaction) (w : world) (code name : string) :
  session_state w !! "ui_language" = Some code →
  picked_provider u = Some name → lower name = "ollama" →
  typed_base_url u = None → typed_model_name u = None →
  save_clicked u = true →
  let old key := default "" (config_app w !! key) in
  let after := (middle_config_panel locales str_lower u w).2 in
  config_app after !! "ollama_base_url"
  = Some (if truthy (old "ollama_base_url") then old "ollama_base_url"
          else "http://localhost:11434/v1")
  ∧ config_app after !! "ollama_model_name"
    = Some (if truthy (old "ollama_model_name") then old "ollama_model_name"
            else "qwen:7b").
Proof.
  intros Hlang Hpicked Hname Hurl_typed Hmodel_typed Hsave.
  destruct (middle_config_panel_eval locales str_lower u w code Hlang)
    as (seeded & w1 & w' & Hprefill & Hrun & _ & Happ & _).
  rewrite Hpicked in Hprefill, Hrun, Happ. rewrite Hsave in Happ.
  cbn [default from_option id] in Hprefill, Hrun, Happ.
  rewrite Hname in Hprefill, Hrun, Happ.
  rewrite Hurl_typed, Hmodel_typed in Hrun, Happ.
  cbn [default from_option id] in Hrun, Happ.
  destruct (prefill_eval "ollama" (set_app (insert "llm_provider" "ollama") w))
    as (seeded' & w1' & Hprefill' & _ & _ & _ & _ & _ & _ & Hurl & Hmodel).
  rewrite Hprefill in Hprefill'. injection Hprefill' as <- <-.
  simpl in Hurl, Hmodel.
  rewrite lookup_credential_after_select in Hurl, Hmodel by done.
  cbv zeta beta. rewrite Hrun. simpl. rewrite Happ.
  match goal with
  | |- saved_app _ ?f ?a !! _ = _ ∧ _ =>
      pose proof (saved_app_lookup "ollama" f a) as (_ & _ & Hk3 & Hk4 & _)
  end.
  simpl in Hk3, Hk4. cbv [String.append] in Hk3, Hk4, Hurl, Hmodel.
  rewrite Hk3, Hk4, Hurl, Hmodel.
  split.
  - by destruct (default "" (config_app w !! "ollama_base_url")).
  - by destruct (default "" (config_app w !! "ollama_model_name")).
Qed.

End provider_column.

Lemma saved_provider_is_selected_witness :
  let w := World {[ "ui_language" := "en-US" ]} {[ "llm_provider" := "AZURE" ]} [] in
  Settings.select_provider ∅ lower Settings.untouched w
  = (Ok "azure", set_app (insert "llm_provider" "azure") w).
Proof.
  intros w.
  apply (proj2 (saved_provider_is_selected ∅ lower Settings.untouched w "en-US" "AZURE" "Azure"
                  eq_refl eq_refl
                  (list_elem_of_further _ _ _
                     (list_elem_of_further _ _ _ (list_elem_of_here _ _)))
                  eq_refl eq_refl)).
Defined.

Lemma run_without_save_frame_witness :
  ∃ p seeded form w',
    Settings.middle_config_panel ∅ lower (Settings.just_pick "Qwen") Settings.english_session
    = (Ok (p, seeded, form), w')
    ∧ config_app w' = <["llm_provider" := p]> (config_app Settings.english_session).
Proof.
  destruct (run_without_save_frame ∅ lower (Settings.just_pick "Qwen")
              Settings.english_session "en-US" eq_refl eq_refl)
    as (p & seeded & form & w' & Hrun & _ & Happ & _).
  by exists p, seeded, form, w'.
Defined.

Lemma save_keeps_other_providers_witness :
  let w := World {[ "ui_language" := "en-US" ]} {[ "azure_api_key" := "az-1" ]} [] in
  config_app (Settings.middle_config_panel ∅ lower Settings.save_openai_filled w).2
    !! "azure_api_key"
  = Some "az-1".
Proof.
  intros w.
  rewrite (save_keeps_other_providers ∅ lower Settings.save_openai_filled w
             "en-US" "OpenAI" "Azure" "azure_api_key" eq_refl eq_refl eq_refl
             (list_elem_of_here _ _)
             (list_elem_of_further _ _ _
                (list_elem_of_further _ _ _ (list_elem_of_here _ _)))
             ltac:(discriminate) (list_elem_of_here _ _)).
  reflexivity.
Defined.

Lemma reselecting_provider_is_noop_witness :
  ∃ seeded w1 w2,
    Settings.middle_config_panel ∅ lower (Settings.just_pick "Gemini") Settings.english_session
    = (Ok ("gemini", seeded, seeded), w1)
    ∧ Settings.middle_config_panel ∅ lower (Settings.just_pick "Gemini") w1
      = (Ok ("gemini", seeded, seeded), w2)
    ∧ config_app w2 = config_app w1.
Proof.
  destruct (reselecting_provider_is_noop ∅ lower "Gemini" Settings.english_session "en-US"
              eq_refl)
    as (seeded & w1 & w2 & Hrun1 & Hrun2 & Happ & _).
  by exists seeded, w1, w2.
Defined.

Lemma ollama_defaults_are_saved_witness :
  let u := Settings.Interaction (Some "Ollama") (Some "123") None None None None true in
  config_app (Settings.middle_config_panel ∅ lower u Settings.english_session).2
    !! "ollama_model_name"
  = Some "qwen:7b".
Proof.
  intros u.
  apply (proj2 (ollama_defaults_are_saved ∅ lower u Settings.english_session "en-US" "Ollama"
                  eq_refl eq_refl eq_refl eq_refl eq_refl eq_refl)).
Defined.

(** ** The language column *)

Section language_column.
Import I18n Settings Language.

Lemma prefix_sep_no_space (c : ascii) (s : string) :
  is_space c = false → String.prefix " - " (String c s) = false.
Proof.
  intros Hc. cbn [String.prefix]. destruct (ascii_dec " " c) as [<-|]; [|done].
  by vm_compute in Hc.
Qed.

Lemma before_first_code (code rest : string) :
  no_space code = true → before_first " - " (code +:+ " - " +:+ rest) = code.
Proof.
  induction code as [|c code IH]; intros Hcode.
  - by destruct rest.
  - cbn [no_space] in Hcode. apply andb_true_iff in Hcode as [Hc Hcode].
    apply negb_true_iff in Hc.
    change (String c code +:+ " - " +:+ rest) with (String c (code +:+ " - " +:+ rest)).
    cbn [before_first]. rewrite prefix_sep_no_space by done. by rewrite IH.
Qed.

Lemma rstrip_no_space (s : string) : no_space s = true → rstrip s = s.
Proof.
  induction s as [|c s IH]; [done|]. cbn [no_space rstrip].
  intros [Hc Hs]%andb_true_iff. apply negb_true_iff in Hc.
  rewrite IH by done. destruct s; [by rewrite Hc|done].
Qed.

Lemma strip_no_space (s : string) : no_space s = true → strip s = s.
Proof.
  intros Hs. unfold strip. rewrite rstrip_no_space by done.
  destruct s as [|c s]; [done|]. cbn [no_space] in Hs.
  apply andb_true_iff in Hs as [Hc _]. apply negb_true_iff in Hc.
  cbn [lstrip]. by rewrite Hc.
Qed.

Lemma plain_no_space (s : string) : plain s = true → no_space s = true.
Proof.
  induction s as [|c s IH]; [done|]. cbn [plain no_space].
  intros [[Hlow Hhigh]%andb_true_iff Hs]%andb_true_iff.
  rewrite IH by done. rewrite andb_true_r. apply negb_true_iff.
  unfold is_space. cbv zeta.
  apply N.leb_le in Hlow. apply not_true_is_false.
  intros [[_ H]%andb_true_iff|[_ H]%andb_true_iff]%orb_true_iff;
    apply N.leb_le in H; lia.
Qed.

Lemma display_language_truthy (code : string) (loc : locale) :
  truthy (display_language code loc) = true.
Proof. unfold display_language. by destruct code. Qed.

Lemma display_language_code (code : string) (loc : locale) :
  plain code = true →
  strip (before_first " - " (display_language code loc)) = code.
Proof.
  intros Hcode%plain_no_space. unfold display_language.
  by rewrite before_first_code, strip_no_space.
Qed.

(** The loop lists every code with its language name; the index it leaves
    is the position of the active language, when the table has it. *)
Lemma language_loop_eval (locales : gmap string locale) (cur : string) (w : world)
    (codes : list string) :
  session_state w !! "ui_language" = Some cur →
  (∀ c, c ∈ codes → is_Some (locales !! c)) →
  ∀ k acc index,
  ∃ index',
    language_loop locales (zip (seq k (length codes)) codes) acc index w
    = (Ok (acc ++ map (λ c, display_language c (default empty_locale (locales !! c)))
                      codes, index'), w)
    ∧ (cur ∉ codes → index' = index)
    ∧ (∀ i, codes !! i = Some cur → NoDup codes → index' = k + i).
Proof.
  intros Hlang. induction codes as [|c codes IH]; intros Hkeys k acc index.
  - exists index. simpl. rewrite app_nil_r. by repeat split.
  - destruct (Hkeys c) as [loc Hloc]; [apply list_elem_of_here|].
    assert (∀ c', c' ∈ codes → is_Some (locales !! c')) as Hkeys'.
    { intros c' Hin. apply Hkeys. by apply list_elem_of_further. }
    cbn [length seq zip zip_with language_loop]. unfold getitem. unfold_m.
    rewrite Hloc, Hlang.
    destruct (IH Hkeys' (S k)
                (acc ++ [display_language c loc])
                (if String.eqb c cur then k else index))
      as (index' & Hrun & Hout & Hin).
    exists index'. unfold_m. rewrite Hrun. simpl. rewrite Hloc. simpl.
    rewrite <- app_assoc. split; [done|].
    destruct (String.eqb_spec c cur) as [->|Hne].
    + split; [intros Hnot; exfalso; apply Hnot, list_elem_of_here|].
      intros [|i] Hi Hnodup; apply NoDup_cons in Hnodup as [Hfresh Hnodup].
      * rewrite Hout by done. lia.
      * exfalso. apply Hfresh. simpl in Hi. by apply list_elem_of_lookup_2 in Hi.
    + split.
      * intros Hnot. apply Hout. intros Hcur. apply Hnot. by apply list_elem_of_further.
      * intros [|i] Hi Hnodup; simpl in Hi; [congruence|].
        apply NoDup_cons in Hnodup as [_ Hnodup]. rewrite (Hin i) by done. lia.
Qed.

Lemma language_column_eval (codes : list string) (locales : gmap string locale)
    (picked : option string) (config_ui : gmap string string) (w : world)
    (cur : string) :
  session_state w !! "ui_language" = Some cur →
  (∀ c, c ∈ codes → is_Some (locales !! c)) →
  ∃ index,
    (cur ∉ codes → index = 0)
    ∧ (∀ i, codes !! i = Some cur → NoDup codes → index = i)
    ∧ let options :=
        map (λ c, display_language c (default empty_locale (locales !! c))) codes in
      let selected := default (nth index options "") picked in
      language_column codes locales picked config_ui w
      = if truthy selected
        then (Ok (<["language" := strip (before_first " - " selected)]> config_ui),
              World (<["ui_language" := strip (before_first " - " selected)]>
                       (session_state w))
                    (config_app w) (effects w))
        else (Ok config_ui, w).
Proof.
  intros Hlang Hkeys.
  destruct (language_loop_eval locales cur w codes Hlang Hkeys 0 [] 0)
    as (index & Hloop & Hout & Hin).
  exists index. split; [done|]. split; [done|].
  cbv zeta. unfold language_column, enumerate, selectbox.
  unfold bind at 1. rewrite Hloop. simpl.
  unfold bind at 1. rewrite (tr_eval _ _ cur) by done.
  by destruct (truthy _).
Qed.

(** X16. Picking an entry of the language select box makes its locale the
    active language: for a code of printable characters other than the
    space, the code is read back
    from the entry [code - name] unchanged, stored as the session's
    [ui_language] and as [language] in [config.ui]; the rest of the world
    stays as it was. *)
Theorem language_pick_round_trip (codes : list string) (locales : gmap string locale)
    (config_ui : gmap string string) (w : world) (cur code : string) (loc : locale) :
  session_state w !! "ui_language" = Some cur →
  (∀ c, c ∈ codes → is_Some (locales !! c)) →
  code ∈ codes → locales !! code = Some loc →
  plain code = true →
  language_column codes locales (Some (display_language code loc)) config_ui w
  = (Ok (<["language" := code]> config_ui),
     World (<["ui_language" := code]> (session_state w)) (config_app w) (effects w)).
Proof.
  intros Hlang Hkeys _ _ Hcode.
  destruct (language_column_eval codes locales (Some (display_language code loc))
              config_ui w cur Hlang Hkeys) as (index & _ & _ & Hrun).
  cbv zeta in Hrun. cbn [default from_option id] in Hrun.
  by rewrite display_language_truthy, display_language_code in Hrun.
Qed.

(** X17. With the select box left alone, a run keeps the active language
    when it is a code of the table, made of printable characters other than
    the space: the session state is unchanged and [config.ui] records that
    language. *)
Theorem language_rerun_keeps_language (codes : list string)
    (locales : gmap string locale) (config_ui : gmap string string) (w : world)
    (cur : string) :
  session_state w !! "ui_language" = Some cur →
  (∀ c, c ∈ codes → is_Some (locales !! c)) →
  NoDup codes → cur ∈ codes → plain cur = true →
  language_column codes locales None config_ui w
  = (Ok (<["language" := cur]> config_ui), w).
Proof.
  intros Hlang Hkeys Hnodup Hin Hcur.
  destruct (language_column_eval codes locales None config_ui w cur Hlang Hkeys)
    as (index & _ & Hindex & Hrun).
  apply list_elem_of_lookup in Hin as [i Hi].
  rewrite (Hindex i Hi Hnodup) in Hrun. cbv zeta in Hrun.
  cbn [default from_option id] in Hrun.
  erewrite nth_lookup_Some in Hrun by (rewrite list_lookup_fmap, Hi; reflexivity).
  rewrite display_language_truthy, display_language_code in Hrun by done.
  rewrite Hrun. f_equal. destruct w as [ss app fx]. simpl in *.
  by rewrite insert_id.
Qed.

(** X18. With the select box left alone and an active language that is no
    code of the table, a run makes the first locale of the table the active
    language (its code made of printable characters other than the space);
    when the table is empty the run changes nothing. *)
Theorem language_rerun_falls_back (codes : list string)
    (locales : gmap string locale) (config_ui : gmap string string) (w : world)
    (cur : string) :
  session_state w !! "ui_language" = Some cur →
  (∀ c, c ∈ codes → is_Some (locales !! c)) →
  cur ∉ codes →
  match codes with
  | [] => language_column codes locales None config_ui w = (Ok config_ui, w)
  | first :: _ =>
      plain first = true →
      language_column codes locales None config_ui w
      = (Ok (<["language" := first]> config_ui),
         World (<["ui_language" := first]> (session_state w))
               (config_app w) (effects w))
  end.
Proof.
  intros Hlang Hkeys Hout.
  destruct (language_column_eval codes locales None config_ui w cur Hlang Hkeys)
    as (index & Hindex & _ & Hrun).
  rewrite (Hindex Hout) in Hrun. cbv zeta in Hrun.
  cbn [default from_option id] in Hrun.
  destruct codes as [|first codes]; [done|].
  intros Hfirst. cbn [map nth] in Hrun.
  by rewrite display_language_truthy, display_language_code in Hrun.
Qed.

End language_column.

Lemma two_locales_keys (c : string) :
  c ∈ Language.two_codes → is_Some (Language.two_locales !! c).
Proof.
  unfold Language.two_codes. rewrite !elem_of_cons, elem_of_nil.
  intros [->|[->|[]]]; by eexists.
Defined.

Lemma language_pick_round_trip_witness :
  Language.language_column Language.two_codes Language.two_locales
    (Some "zh-CN - Chinese") ∅ Settings.english_session
  = (Ok {[ "language" := "zh-CN" ]}, World {[ "ui_language" := "zh-CN" ]} ∅ []).
Proof.
  rewrite (language_pick_round_trip Language.two_codes Language.two_locales ∅
             Settings.english_session "en-US" "zh-CN"
             (I18n.Locale (Some "Chinese") None)
             eq_refl two_locales_keys (list_elem_of_here _ _) eq_refl eq_refl).
  reflexivity.
Defined.

Lemma language_rerun_keeps_language_witness :
  Language.language_column Language.two_codes Language.two_locales None ∅
    Settings.english_session
  = (Ok {[ "language" := "en-US" ]}, Settings.english_session).
Proof.
  apply (language_rerun_keeps_language Language.two_codes Language.two_locales ∅
           Settings.english_session "en-US" eq_refl two_locales_keys).
  - compute_done.
  - apply list_elem_of_further, list_elem_of_here.
  - reflexivity.
Defined.

Lemma language_rerun_falls_back_witness :
  let w := World {[ "ui_language" := "xx-XX" ]} ∅ [] in
  Language.language_column Language.two_codes Language.two_locales None ∅ w
  = (Ok {[ "language" := "zh-CN" ]}, World (<["ui_language" := "zh-CN"]> (session_state w)) ∅ []).
Proof.
  intros w.
  apply (language_rerun_falls_back Language.two_codes Language.two_locales ∅ w "xx-XX"
           eq_refl two_locales_keys).
  - compute_done.
  - reflexivity.
Defined.
